(** * pybacktest: the vectorized backtest of [pybacktest/backtest.py]

    A shallow embedding of the class [Backtest]: the lookup of the bars
    table, the default and resolved trade price, and the trade ledger,
    together with the pandas operations these use.  The module [parts]
    that [backtest.py] imports is not among the sources; the values it
    computes are arguments of the functions below, and the position
    reconstructor is modelled from the specification in [Module parts].

    Conventions.  A pandas Series over the run's time index is the list of
    its values, the label of a value being its position (0, 1, ...); all
    Series of one run are laid out over the same index.  A Series or frame
    whose index is a subset of the labels (the result of boolean indexing
    or of [dropna]) carries its labels explicitly.  Cells are IEEE binary64
    floats, [nan] being the missing value. *)

From Stdlib Require Import Floats.PrimFloat ZArith Strings.Ascii.
From Stdlib Require Import Floats.FloatAxioms.
From stdpp Require Import gmap strings list sorting.

Local Open Scope string_scope.
Local Open Scope nat_scope.
Local Open Scope list_scope.

(** ** Exceptions *)

Inductive exn : Type :=
| Exception (msg : string)
| KeyError (key : string)
| AttributeError (attr : string)
| TypeError (msg : string)
| IndexingError (msg : string).

Inductive result (A : Type) : Type :=
| Ok (a : A)
| Raise (e : exn).
Arguments Ok {A} a.
Arguments Raise {A} e.

#[global] Instance result_ret : MRet result := λ A, Ok.
#[global] Instance result_bind : MBind result :=
  λ A B f m, match m with Ok a => f a | Raise e => Raise e end.

(** ** The pandas operations used by [backtest.py] *)

Module pandas.

(** A frame: the number of rows of its index and its named columns. *)
Record DataFrame (A : Type) : Type :=
  { index : nat; columns : gmap string (list A) }.
Arguments index {A} _.
Arguments columns {A} _.

(** [df[c]] *)
Definition getitem {A} (df : DataFrame A) (c : string) : result (list A) :=
  match columns df !! c with
  | Some s => Ok s
  | None => Raise (KeyError c)
  end.

(** [x[c]] where [x] may be [None] *)
Definition getitem_opt {A} (df : option (DataFrame A)) (c : string)
  : result (list A) :=
  match df with
  | Some df => getitem df c
  | None => Raise (TypeError "'NoneType' object has no attribute '__getitem__'")
  end.

Definition isnull (x : float) : bool := is_nan x.

(** [pandas.Series(dtype=float, index=idx)]: every value missing. *)
Definition empty_series (idx : nat) : list float := replicate idx nan.

(** [s.shift(periods)]: the value at label [i] is the one that was at
    [i - periods]; labels that receive nothing are missing. *)
Definition shift (periods : Z) (s : list float) : list float :=
  imap (λ i _, let j := (Z.of_nat i - periods)%Z in
               if (0 <=? j)%Z then default nan (s !! Z.to_nat j) else nan) s.

Definition unalignable : exn :=
  IndexingError "Unalignable boolean Series key provided".

(** [p[key]] for a boolean Series [key]: the key is reindexed on [p]'s
    index (a label of [p] the key lacks is an error, a label only the
    key has is ignored); the result keeps the labels where the key is
    true. *)
Definition bool_getitem (p : list float) (key : list bool)
  : result (gmap nat float) :=
  if decide (length key < length p) then Raise unalignable
  else Ok (filter (λ kv, key !! kv.1 = Some true) (map_seq 0 p)).

(** [dp[key] = value] for a boolean Series [key] and a Series [value]:
    where the key is true the cell takes the value carried by [value]
    under the same label (missing when [value] has no such label). *)
Definition bool_setitem (dp : list float) (key : list bool)
    (value : gmap nat float) : result (list float) :=
  if decide (length key < length dp) then Raise unalignable
  else Ok (imap (λ i x, if decide (key !! i = Some true)
                        then default nan (value !! i) else x) dp).

(** [a.combine_first(b)]: over the union of both indexes, the value of
    [a] where it is not missing, else the value of [b]. *)
Definition combine_first (a b : list float) : list float :=
  (λ i, let x := default nan (a !! i) in
        if isnull x then default nan (b !! i) else x)
    <$> seq 0 (length a `max` length b).

(** [s.diff()]: missing at the first row, then the difference with the
    row before. *)
Definition diff (s : list float) : list float :=
  match s with
  | [] => []
  | _ :: s' => nan :: zip_with PrimFloat.sub s' s
  end.

End pandas.
Import pandas.

(** ** Python values a [dataobj] may hold *)

Inductive pyobj : Type :=
| PyNone
| PyFrame (df : DataFrame float)
| PyBoolSeries (s : list bool)
| PyFloatSeries (s : list float)
| PyObject (repr : string).

(** [d.get(k)] *)
Definition get (d : gmap string pyobj) (k : string) : pyobj :=
  default PyNone (d !! k).

(** [o.a] for a column name [a] *)
Definition getattr (o : pyobj) (a : string) : result (list float) :=
  match o with
  | PyFrame df =>
      match columns df !! a with
      | Some s => Ok s
      | None => Raise (AttributeError a)
      end
  | _ => Raise (AttributeError a)
  end.

(** [k.lower()] on a byte string *)
Definition lower_ascii (c : ascii) : ascii :=
  let n := nat_of_ascii c in
  if (65 <=? n) && (n <=? 90) then ascii_of_nat (n + 32) else c.

Fixpoint lower (s : string) : string :=
  match s with
  | EmptyString => EmptyString
  | String c s' => String (lower_ascii c) (lower s')
  end.

(** [dict(items)]: a later item replaces an earlier one with the same key. *)
Definition dict (items : list (string * pyobj)) : gmap string pyobj :=
  foldl (λ m kv, <[kv.1 := kv.2]> m) ∅ items.

(** ** class Backtest *)

Record Backtest : Type :=
  { _dataobj : gmap string pyobj;
    _sig_mask_ext : list string;
    _pr_mask_ext : list string;
    name : string }.

Definition _ohlc_possible_fields : list string := ["ohlc"; "bars"; "ohlcv"].
Definition _sig_mask_int : list string := ["Buy"; "Sell"; "Short"; "Cover"].
Definition _pr_mask_int : list string :=
  ["BuyPrice"; "SellPrice"; "ShortPrice"; "CoverPrice"].

Definition dataobj (self : Backtest) : gmap string pyobj := _dataobj self.

Definition bars_not_found : exn :=
  Exception "Bars dataframe was not found in dataobj".

(** The loop of [ohlc] over the candidate names. *)
Fixpoint ohlc_scan (d : gmap string pyobj) (names : list string)
  : result pyobj :=
  match names with
  | [] => Raise bars_not_found
  | possible_name :: names' =>
      match get d possible_name with
      | PyNone => ohlc_scan d names'
      | s => Ok s
      end
  end.

Definition ohlc (self : Backtest) : result pyobj :=
  ohlc_scan (dataobj self) _ohlc_possible_fields.

(** [__init__]: the keys are lower-cased, and the two plot slicers are
    built on [self.ohlc], which is therefore read here.  The constructor
    [parts.Slicer] is not among the sources: the model stands for
    [__init__] up to these two calls, so its raising is the raising of
    [__init__], while its returning says only that [__init__] does not
    raise before them.  The run time is left out. *)
Definition __init__ (dataobj : list (string * pyobj)) (name : string)
    (signal_fields price_fields : list string) : result Backtest :=
  let self :=
    {| _dataobj := dict (prod_map lower id <$> dataobj);
       _sig_mask_ext := signal_fields;
       _pr_mask_ext := price_fields;
       name := name |} in
  _ ← ohlc self;
  _ ← ohlc self;
  Ok self.

Definition default_signal_fields : list string :=
  ["buy"; "sell"; "short"; "cover"].
Definition default_price_fields : list string :=
  ["buyprice"; "sellprice"; "shortprice"; "coverprice"].

(** One row of the ledger that [trades] returns. *)
Record TradeRow : Type :=
  { ts : nat; pos : float; price : float; vol : float }.

Section Properties.

(** The instance, and the values of the properties [signals] and
    [prices], which [parts.extract_frame] computes from [dataobj]:
    a frame, [None], or an exception. *)
Variable self : Backtest.
Variable signals : result (option (DataFrame bool)).
Variable prices : result (option (DataFrame float)).

Definition default_price : result (list float) :=
  o ← ohlc self;
  O ← getattr o "O";
  Ok (shift (-1) O).

(** The loop of [trade_price] over the pairs of price and signal column. *)
Fixpoint assign_prices (pairs : list (string * string)) (dp : list float)
  : result (list float) :=
  match pairs with
  | [] => Ok dp
  | (pf, sf) :: pairs' =>
      sg ← signals;
      s ← getitem_opt sg sf;
      pr ← prices;
      p ← getitem_opt pr pf;
      v ← bool_getitem p s;
      dp' ← bool_setitem dp s v;
      assign_prices pairs' dp'
  end.

Definition trade_price : result (list float) :=
  pr ← prices;
  match pr with
  | None =>
      o ← ohlc self;
      O ← getattr o "O";
      Ok (shift (-1) O)
  | Some pr =>
      dp ← assign_prices (zip _pr_mask_int _sig_mask_int)
                         (empty_series (index pr));
      d ← default_price;
      Ok (combine_first dp d)
  end.

End Properties.

(** The body of [trades], on the values of [positions] and [trade_price]. *)

(** [t = DataFrame({'pos': positions}); t['price'] = trade_price]: the
    price is aligned on the index of the positions. *)
Definition join_price (positions trade_price : list float)
  : list (nat * float * float) :=
  imap (λ i p, (i, p, default nan (trade_price !! i))) positions.

(** [t.dropna()]: a row with a missing cell is dropped. *)
Definition dropna (t : list (nat * float * float))
  : list (nat * float * float) :=
  filter (λ r, isnull r.1.2 = false ∧ isnull r.2 = false) t.

(** [t['vol'] = t.pos.diff()] *)
Definition set_vol (t : list (nat * float * float)) : list TradeRow :=
  zip_with (λ r v, {| ts := r.1.1; pos := r.1.2; price := r.2; vol := v |})
           t (diff (t.*1.*2)).

Definition trades (positions trade_price : result (list float))
  : result (list TradeRow) :=
  ps ← positions;
  tp ← trade_price;
  Ok (set_vol (dropna (join_price ps tp))).

(** ** The module [parts]: the position reconstructor *)

Module parts.

(** Modelled from the spec: the state of the position reconstructor of
    [parts.signals_to_positions], whose source is missing (section 4.2:
    State is one of Flat, Long, Short). *)
Inductive State : Type := Flat | Long | Short.

(** Modelled from the spec: one row of the table of the four boolean
    signal columns that [parts.signals_to_positions] consumes. *)
Record Signal : Type :=
  { buy : bool; sell : bool; short : bool; cover : bool }.

(** Modelled from the spec: the guarded transition of Cover in the
    missing [parts.signals_to_positions] (Cover true while Short goes to
    Flat).  The second component records that a transition was taken. *)
Definition on_cover (sig : Signal) (st : State * bool) : State * bool :=
  if cover sig then match st.1 with Short => (Flat, true) | _ => st end
  else st.

(** Modelled from the spec: the guarded transition of Buy in the missing
    [parts.signals_to_positions] (Buy true while not Long goes to Long). *)
Definition on_buy (sig : Signal) (st : State * bool) : State * bool :=
  if buy sig then match st.1 with Long => st | _ => (Long, true) end
  else st.

(** Modelled from the spec: the guarded transition of Sell in the missing
    [parts.signals_to_positions] (Sell true while Long goes to Flat). *)
Definition on_sell (sig : Signal) (st : State * bool) : State * bool :=
  if sell sig then match st.1 with Long => (Flat, true) | _ => st end
  else st.

(** Modelled from the spec: the guarded transition of Short in the
    missing [parts.signals_to_positions] (Short true while not Short goes
    to Short). *)
Definition on_short (sig : Signal) (st : State * bool) : State * bool :=
  if short sig then match st.1 with Short => st | _ => (Short, true) end
  else st.

(** Modelled from the spec: one timestamp of the missing
    [parts.signals_to_positions]; the signals are read in the fixed
    order Cover, Buy, Sell, Short, and with no applicable signal the
    state persists.  Returns the new state and whether some transition
    was taken at this timestamp. *)
Definition step (st : State) (sig : Signal) : State * bool :=
  on_short sig (on_sell sig (on_buy sig (on_cover sig (st, false)))).

(** Modelled from the spec: the output value of the missing
    [parts.signals_to_positions] for a state (+1 while Long, -1 while
    Short, 0 while Flat). *)
Definition value (st : State) : float :=
  match st with
  | Long => 1%float
  | Short => (-1)%float
  | Flat => 0%float
  end.

(** Modelled from the spec: the single left-to-right pass of the missing
    [parts.signals_to_positions]; [traded] tells whether a transition
    was taken so far, the output being undefined until then. *)
Fixpoint scan (st : State) (traded : bool) (rows : list Signal)
  : list float :=
  match rows with
  | [] => []
  | sig :: rows' =>
      let st' := step st sig in
      let traded' := traded || st'.2 in
      (if traded' then value st'.1 else nan) :: scan st'.1 traded' rows'
  end.

(** Modelled from the spec: the missing [parts.signals_to_positions] on
    the rows of the signal table, from the initial state Flat with
    nothing traded. *)
Definition reconstruct (rows : list Signal) : list float :=
  scan Flat false rows.

(** Modelled from the spec: the rows of the signal table read by the
    missing [parts.signals_to_positions], one per label of the index. *)
Definition signal_rows (n : nat) (b s sh c : list bool) : list Signal :=
  (λ i, {| buy := default false (b !! i); sell := default false (s !! i);
           short := default false (sh !! i);
           cover := default false (c !! i) |}) <$> seq 0 n.

(** Modelled from the spec: the missing [parts.signals_to_positions];
    [mask] names the columns of long entry, long exit, short entry and
    short exit. *)
Definition signals_to_positions (signals : option (DataFrame bool))
    (mask : list string) : result (list float) :=
  match mask with
  | [long_en; long_ex; short_en; short_ex] =>
      b ← getitem_opt signals long_en;
      s ← getitem_opt signals long_ex;
      sh ← getitem_opt signals short_en;
      c ← getitem_opt signals short_ex;
      Ok (reconstruct
            (signal_rows (from_option index 0 signals) b s sh c))
  | _ => Raise (TypeError "mask must name four columns")
  end.

(** The state after a run of rows, and whether a transition was taken
    during it. *)
Definition run_from (st : State) (rows : list Signal) : State :=
  foldl (λ st sig, (step st sig).1) st rows.

Fixpoint any_fired (st : State) (rows : list Signal) : bool :=
  match rows with
  | [] => false
  | sig :: rows' => (step st sig).2 || any_fired (step st sig).1 rows'
  end.

(** The state in which timestamp [t] is entered and left, and whether a
    signal causes a transition at [t]. *)
Definition state_before (rows : list Signal) (t : nat) : State :=
  run_from Flat (take t rows).

Definition state_after (rows : list Signal) (t : nat) : State :=
  run_from Flat (take (S t) rows).

Definition fires_at (rows : list Signal) (t : nat) : bool :=
  match rows !! t with
  | Some sig => (step (state_before rows t) sig).2
  | None => false
  end.

End parts.

(** [positions]: the position series of the signals. *)
Definition positions (signals : result (option (DataFrame bool)))
  : result (list float) :=
  sg ← signals;
  parts.signals_to_positions sg _sig_mask_int.

(** ** plot_trades: the markers *)

Module plot_trades.

(** The body of [plot_trades] up to the drawing: the four marker Series
    [le], [se], [lx], [sx] (long enter, short enter, long exit, short
    exit) selected from the frame [fr = self.trades.ix[subset]], which is
    the whole ledger for the default [subset]. *)

(** [s > c] and [s < c] on a Series; a comparison with NaN is false. *)
Definition gt (s : list float) (c : float) : list bool :=
  (λ x, PrimFloat.ltb c x) <$> s.

Definition lt (s : list float) (c : float) : list bool :=
  (λ x, PrimFloat.ltb x c) <$> s.

(** [a & b] *)
Definition and_ (a b : list bool) : list bool := zip_with andb a b.

(** [fr.price[mask]]: the prices of the rows where the mask is true, under
    their labels. *)
Definition price_where (fr : list TradeRow) (mask : list bool)
  : list (nat * float) :=
  (λ rm, (ts rm.1, price rm.1)) <$> filter (λ rm, rm.2 = true) (zip fr mask).

(** The boolean keys of the four selections. *)
Definition le_mask (fr : list TradeRow) : list bool :=
  and_ (gt (pos <$> fr) 0) (gt (vol <$> fr) 0).
Definition se_mask (fr : list TradeRow) : list bool :=
  and_ (lt (pos <$> fr) 0) (lt (vol <$> fr) 0).
Definition lx_mask (fr : list TradeRow) : list bool :=
  and_ (gt (shift 1 (pos <$> fr)) 0) (lt (vol <$> fr) 0).
Definition sx_mask (fr : list TradeRow) : list bool :=
  and_ (lt (shift 1 (pos <$> fr)) 0) (gt (vol <$> fr) 0).

(** The four marker Series. *)
Definition le (fr : list TradeRow) := price_where fr (le_mask fr).
Definition se (fr : list TradeRow) := price_where fr (se_mask fr).
Definition lx (fr : list TradeRow) := price_where fr (lx_mask fr).
Definition sx (fr : list TradeRow) := price_where fr (sx_mask fr).

End plot_trades.

(** * Auxiliary definitions and example inputs *)

(** The timestamp [i] survives [dropna]: the position and the trade price
    are both defined there. *)
Definition survives (ps tp : list float) (i : nat) : Prop :=
  ∃ p, ps !! i = Some p ∧ isnull p = false ∧
       isnull (default nan (tp !! i)) = false.

(** The order of the rows of the join by timestamp. *)
Definition before (a b : nat * float * float) : Prop := a.1.1 < b.1.1.

(** One pass of the loop of [trade_price], [dp[s] = p[s]], on the cells. *)
Definition masked (dp : list float) (s : list bool) (p : list float)
  : list float :=
  imap (λ i x, if decide (s !! i = Some true)
               then default nan (p !! i) else x) dp.

(** The cell of [dp] at timestamp [t] after the passes over the columns
    [cols], taken in order, from the cell [acc]. *)
Definition price_at (t : nat) (cols : list (list bool * list float))
    (acc : float) : float :=
  foldl (λ acc sp, if decide (sp.1 !! t = Some true)
                   then default nan (sp.2 !! t) else acc) acc cols.

(** The signal and price columns that the loop reads for the given pairs
    of names: a price column has a cell for every label of the index of
    the price frame, and a signal column covers that index. *)
Definition price_columns (sg : DataFrame bool) (pr : DataFrame float)
    (pairs : list (string * string)) (cols : list (list bool * list float))
  : Prop :=
  Forall2 (λ names sp, getitem sg names.2 = Ok sp.1 ∧
                       getitem pr names.1 = Ok sp.2 ∧
                       length sp.2 = index pr ∧
                       index pr ≤ length sp.1) pairs cols.

(** No pair after the [k]-th has its signal true at [t]. *)
Definition last_true (t k : nat) (cols : list (list bool * list float))
  : Prop :=
  ∀ j sp, k < j → cols !! j = Some sp → sp.1 !! t ≠ Some true.

(** Inputs for the examples: a bars table with the opens [O] under the name
    'ohlc', an instance holding it, and frames of the four signal and the
    four price columns. *)
Definition bars (O : list float) : pyobj :=
  PyFrame {| index := length O; columns := {[ "O" := O ]} |}.

Definition backtest_of_bars (O : list float) : Backtest :=
  {| _dataobj := {[ "ohlc" := bars O ]};
     _sig_mask_ext := default_signal_fields;
     _pr_mask_ext := default_price_fields;
     name := "Unknown" |}.

Definition signal_frame (b s sh c : list bool) : DataFrame bool :=
  {| index := length b;
     columns := {[ "Buy" := b; "Sell" := s; "Short" := sh; "Cover" := c ]} |}.

Definition price_frame (b s sh c : list float) : DataFrame float :=
  {| index := length b;
     columns := {[ "BuyPrice" := b; "SellPrice" := s; "ShortPrice" := sh;
                   "CoverPrice" := c ]} |}.

(** The scenario of the claim: buyprice = [NaN, 9.5, NaN, NaN] with
    buy = [F, T, F, F] over four bars with opens 9, 10, 11, 12, the other
    signals false and the other prices missing. *)
Definition scenario_signals : DataFrame bool :=
  signal_frame [false; true; false; false] (replicate 4 false)
               (replicate 4 false) (replicate 4 false).

Definition scenario_prices : DataFrame float :=
  price_frame [nan; 9.5; nan; nan]%float (replicate 4 nan)
              (replicate 4 nan) (replicate 4 nan).

Definition scenario_columns : list (list bool * list float) :=
  [([false; true; false; false], [nan; 9.5; nan; nan]%float);
   (replicate 4 false, replicate 4 nan);
   (replicate 4 false, replicate 4 nan);
   (replicate 4 false, replicate 4 nan)].

(** Buy and Sell both true at t0, with the prices 9.5 and 9.75. *)
Definition overlap_signals : DataFrame bool :=
  signal_frame [true; false] [true; false] [false; false] [false; false].

Definition overlap_prices : DataFrame float :=
  price_frame [9.5; nan]%float [9.75; nan]%float [nan; nan] [nan; nan].

(** The four signal columns of a frame. *)
Definition signal_columns (sg : DataFrame bool) (b s sh c : list bool) : Prop :=
  getitem sg "Buy" = Ok b ∧ getitem sg "Sell" = Ok s ∧
  getitem sg "Short" = Ok sh ∧ getitem sg "Cover" = Ok c.

(** Five bars: Short at t0, Buy at t1 and again at t2; the open of the bar
    t2 is missing, so the default price at t1 is missing. *)
Definition gap_bars : list float := [10; 11; nan; 13; 14]%float.

Definition gap_signals : DataFrame bool :=
  signal_frame [false; true; true; false; false] (replicate 5 false)
               [true; false; false; false; false] (replicate 5 false).

(** Three bars: Buy at t0 and again at t1. *)
Definition rebuy_signals : DataFrame bool :=
  signal_frame [true; true; false] (replicate 3 false) (replicate 3 false)
               (replicate 3 false).

(** The scenario of four bars: Buy at t0, Sell at t2. *)
Definition four_bar_signals : DataFrame bool :=
  signal_frame [true; false; false; false] [false; false; true; false]
               (replicate 4 false) (replicate 4 false).

(** Three bars with the first signal, Buy, at t1. *)
Definition late_signals : DataFrame bool :=
  signal_frame [false; true; false] (replicate 3 false) (replicate 3 false)
               (replicate 3 false).

(** Inputs of the constructor with keys in mixed case, and with two keys
    that differ only in case. *)
Definition mixed_case_items : list (string * pyobj) :=
  [("close", PyObject "c"); ("OHLC", bars [9; 10]%float);
   ("Buy", PyBoolSeries [true; false])].

Definition colliding_items : list (string * pyobj) :=
  [("ohlc", PyObject "o"); ("Bars", PyObject "first");
   ("BARS", PyObject "second")].

Definition backtest_of_items (items : list (string * pyobj)) : Backtest :=
  {| _dataobj := dict (prod_map lower id <$> items);
     _sig_mask_ext := default_signal_fields;
     _pr_mask_ext := default_price_fields;
     name := "Unknown" |}.

(** * Properties *)

(** ** The result monad *)

Lemma bind_Ok {A B} (a : A) (f : A → result B) : Ok a ≫= f = f a.
Proof. reflexivity. Qed.

Lemma bind_Raise {A B} (e : exn) (f : A → result B) : Raise e ≫= f = Raise e.
Proof. reflexivity. Qed.

Lemma bind_Ok_inv {A B} (m : result A) (f : A → result B) (b : B) :
  m ≫= f = Ok b → ∃ a, m = Ok a ∧ f a = Ok b.
Proof. destruct m as [a|e]; [eauto | discriminate]. Qed.

(** ** The lookup of the bars table *)

Lemma ohlc_scan_Ok (d : gmap string pyobj) (names : list string) (s : pyobj) :
  ohlc_scan d names = Ok s ↔
  ∃ i nm, names !! i = Some nm ∧ get d nm = s ∧ s ≠ PyNone ∧
          ∀ j nm', j < i → names !! j = Some nm' → get d nm' = PyNone.
Proof.
  induction names as [|n names IH]; simpl.
  { split; [discriminate | intros (i & nm & Hi & _); by destruct i]. }
  assert (get d n ≠ PyNone →
          (Ok (get d n) = Ok s ↔
           ∃ i nm, (n :: names) !! i = Some nm ∧ get d nm = s ∧ s ≠ PyNone ∧
             ∀ j nm', j < i → (n :: names) !! j = Some nm' →
                      get d nm' = PyNone)) as Hfound.
  { intros Hn. split.
    - intros [= <-]. exists 0, n. repeat split; try done. intros; lia.
    - intros ([|i] & nm & Hi & Hg & Hs & Hlt); simpl in *.
      + congruence.
      + destruct Hn. apply (Hlt 0); [lia | done]. }
  destruct (get d n) eqn:E; simpl; try (apply Hfound; discriminate).
  rewrite IH. split.
  - intros (i & nm & Hi & Hg & Hs & Hlt). exists (S i), nm.
    repeat split; try done.
    intros [|j] nm' Hj Hnm'; simpl in *; [congruence | apply (Hlt j); [lia | done]].
  - intros ([|i] & nm & Hi & Hg & Hs & Hlt); simpl in *; [congruence |].
    exists i, nm. repeat split; try done.
    intros j nm' Hj Hnm'. apply (Hlt (S j)); [lia | done].
Qed.

Lemma ohlc_scan_Raise (d : gmap string pyobj) (names : list string) (e : exn) :
  ohlc_scan d names = Raise e ↔
  e = bars_not_found ∧ ∀ nm, nm ∈ names → get d nm = PyNone.
Proof.
  induction names as [|n names IH]; simpl.
  { split.
    - intros [= <-]. split; [done |]. intros nm Hnm. by apply elem_of_nil in Hnm.
    - by intros [-> _]. }
  assert (get d n ≠ PyNone →
          (Ok (get d n) = Raise e ↔
           e = bars_not_found ∧ ∀ nm, nm ∈ n :: names → get d nm = PyNone))
    as Hfound.
  { intros Hn. split; [discriminate | intros [_ H]]. destruct Hn. apply H. by left. }
  destruct (get d n) eqn:E; simpl; try (apply Hfound; discriminate).
  rewrite IH. split; intros [-> H]; split; try done.
  - intros nm [->|Hnm]%elem_of_cons; auto.
  - intros nm Hnm. apply H. by right.
Qed.

Lemma default_price_no_bars (self : Backtest) (e : exn) :
  ohlc self = Raise e → default_price self = Raise e.
Proof. unfold default_price. by intros ->. Qed.

Lemma trade_price_no_bars (self : Backtest) (e : exn) sg pr :
  ohlc self = Raise e → ∃ e', trade_price self sg pr = Raise e'.
Proof.
  intros He. unfold trade_price.
  destruct pr as [[pr|]|e0]; rewrite ?bind_Ok, ?bind_Raise; [| rewrite He; eauto | eauto].
  match goal with
  | |- context [assign_prices ?a ?b ?c ?d] =>
      destruct (assign_prices a b c d) as [dp|e1]
  end; rewrite ?bind_Ok, ?bind_Raise; [| eauto].
  rewrite (default_price_no_bars _ _ He). eauto.
Qed.

(** C6: the bars table is looked up under the candidate names 'ohlc',
    'bars', 'ohlcv' in this order, and the first name that [dataobj] holds
    (with a value other than None) gives the result.  When none of the
    names is present the lookup raises the exception of the bars table not
    being found; so do the default price and the constructor, which reads
    the bars table, and neither the trade price nor the trades return. *)
Theorem ohlc_first_candidate_else_fatal :
  (∀ (self : Backtest) (s : pyobj),
      ohlc self = Ok s ↔
      ∃ i nm, ["ohlc"; "bars"; "ohlcv"] !! i = Some nm ∧
              get (dataobj self) nm = s ∧ s ≠ PyNone ∧
              ∀ j nm', j < i → ["ohlc"; "bars"; "ohlcv"] !! j = Some nm' →
                       get (dataobj self) nm' = PyNone) ∧
  (∀ self : Backtest,
      (∀ nm, nm ∈ ["ohlc"; "bars"; "ohlcv"] → dataobj self !! nm = None) →
      ohlc self = Raise bars_not_found ∧
      default_price self = Raise bars_not_found ∧
      (∀ sg pr, ∃ e, trade_price self sg pr = Raise e) ∧
      (∀ ps sg pr, ∃ e, trades ps (trade_price self sg pr) = Raise e)) ∧
  (∀ (items : list (string * pyobj)) (name : string) (sf pf : list string),
      (∀ nm, nm ∈ ["ohlc"; "bars"; "ohlcv"] →
             dict (prod_map lower id <$> items) !! nm = None) →
      __init__ items name sf pf = Raise bars_not_found) ∧
  (∀ items name sf pf self,
      __init__ items name sf pf = Ok self →
      _dataobj self = dict (prod_map lower id <$> items) ∧
      ∃ s, ohlc self = Ok s).
Proof.
  assert (∀ self : Backtest,
            (∀ nm, nm ∈ _ohlc_possible_fields → dataobj self !! nm = None) →
            ohlc self = Raise bars_not_found) as Hmissing.
  { intros self Hnone. apply ohlc_scan_Raise. split; [done |].
    intros nm Hnm. unfold get. by rewrite (Hnone nm Hnm). }
  split; [| split; [| split]].
  - intros self s. apply ohlc_scan_Ok.
  - intros self Hnone. pose proof (Hmissing self Hnone) as He.
    split; [done |]. split; [by apply default_price_no_bars |]. split.
    + intros sg pr. by eapply trade_price_no_bars.
    + intros ps sg pr. destruct (trade_price_no_bars self _ sg pr He) as [e' ->].
      unfold trades. destruct ps as [ps|e0]; rewrite ?bind_Ok, ?bind_Raise; eauto.
  - intros items nm sf pf Hnone. unfold __init__. cbv zeta.
    by rewrite Hmissing by exact Hnone.
  - intros items nm sf pf self. unfold __init__.
    destruct (ohlc _) as [s|e] eqn:Hs; rewrite ?bind_Ok, ?bind_Raise;
      [| discriminate].
    intros [= <-]. split; [done | eauto].
Qed.

(** The lookup on three concrete mappings: the first candidate present
    wins, upper-case keys are found through their lower-case form, and a
    mapping without any candidate cannot be constructed. *)
Example ohlc_example_first :
  ohlc {| _dataobj := {[ "ohlcv" := PyObject "v"; "bars" := PyObject "b";
                         "close" := PyObject "c" ]};
          _sig_mask_ext := []; _pr_mask_ext := []; name := "" |}
  = Ok (PyObject "b").
Proof. reflexivity. Qed.

Example init_example_upper :
  ohlc_scan (dict (prod_map lower id <$> [("Close", PyObject "c"); ("OHLC", PyObject "o")]))
            _ohlc_possible_fields
  = Ok (PyObject "o").
Proof. reflexivity. Qed.

Example init_example_missing :
  __init__ [("close", PyObject "c"); ("buy", PyBoolSeries [true])]
           "Unknown" default_signal_fields default_price_fields
  = Raise (Exception "Bars dataframe was not found in dataobj").
Proof. reflexivity. Qed.

(** ** pandas: shift, combine_first, diff *)

Lemma length_shift (periods : Z) (s : list float) :
  length (shift periods s) = length s.
Proof. unfold shift. by rewrite length_imap. Qed.

Lemma lookup_shift_back (s : list float) (i : nat) :
  i < length s → shift (-1) s !! i = Some (default nan (s !! S i)).
Proof.
  intros Hi. unfold shift. rewrite list_lookup_imap.
  destruct (lookup_lt_is_Some_2 s i Hi) as [x ->]. simpl.
  replace (Z.of_nat i - -1)%Z with (Z.of_nat (S i)) by lia.
  destruct (Z.leb_spec 0 (Z.of_nat (S i))); [| lia].
  by rewrite Nat2Z.id.
Qed.

Lemma lookup_shift_back_last (s : list float) (i : nat) :
  S i = length s → shift (-1) s !! i = Some nan.
Proof.
  intros Hi. rewrite lookup_shift_back by lia.
  by rewrite lookup_ge_None_2 by lia.
Qed.

Lemma length_combine_first (a b : list float) :
  length (combine_first a b) = length a `max` length b.
Proof. unfold combine_first. by rewrite length_fmap, length_seq. Qed.

Lemma lookup_combine_first (a b : list float) (i : nat) :
  i < length a `max` length b →
  combine_first a b !! i =
    Some (let x := default nan (a !! i) in
          if isnull x then default nan (b !! i) else x).
Proof.
  intros Hi. unfold combine_first. rewrite list_lookup_fmap.
  by rewrite lookup_seq_lt.
Qed.

Lemma length_diff (s : list float) : length (diff s) = length s.
Proof.
  destruct s as [|x s]; [done |]. simpl. f_equal.
  rewrite length_zip_with. simpl. lia.
Qed.

Lemma lookup_diff_first (s : list float) (x : float) :
  s !! 0 = Some x → diff s !! 0 = Some nan.
Proof. by destruct s. Qed.

Lemma lookup_diff_next (s : list float) (k : nat) (x y : float) :
  s !! k = Some x → s !! S k = Some y → diff s !! S k = Some (y - x)%float.
Proof.
  destruct s as [|z s]; [done |]. simpl. intros Hx Hy.
  rewrite lookup_zip_with. rewrite Hy. simpl. by rewrite Hx.
Qed.

(** ** The default price and the trade price without price fields *)

Lemma trade_price_is_default_without_prices_aux
    (self : Backtest) (sg : result (option (DataFrame bool)))
    (o : pyobj) (O : list float) :
  ohlc self = Ok o →
  getattr o "O" = Ok O →
  default_price self = Ok (shift (-1) O) ∧
  trade_price self sg (Ok None) = Ok (shift (-1) O).
Proof.
  intros Ho HO. unfold trade_price, default_price.
  by rewrite !bind_Ok, Ho, bind_Ok, HO.
Qed.

(** C3: when no price field is supplied (the prices table is None), the
    trade price is the default price at every timestamp, and the default
    price of a bar is the open of the next bar, the last bar having none. *)
Theorem trade_price_is_default_without_prices
    (self : Backtest) (sg : result (option (DataFrame bool)))
    (o : pyobj) (O : list float) :
  ohlc self = Ok o →
  getattr o "O" = Ok O →
  trade_price self sg (Ok None) = default_price self ∧
  ∃ dp, default_price self = Ok dp ∧
        trade_price self sg (Ok None) = Ok dp ∧
        length dp = length O ∧
        ∀ i, i < length O → dp !! i = Some (default nan (O !! S i)).
Proof.
  intros Ho HO. split; [reflexivity |].
  exists (shift (-1) O).
  destruct (trade_price_is_default_without_prices_aux self sg o O Ho HO)
    as [Hd Ht].
  split; [done |]. split; [done |]. split; [apply length_shift |].
  intros i Hi. by apply lookup_shift_back.
Qed.

(** ** The trade ledger *)

Lemma StronglySorted_sublist {A} (R : A → A → Prop) (l1 l2 : list A) :
  l1 `sublist_of` l2 → StronglySorted R l2 → StronglySorted R l1.
Proof.
  induction 1 as [|x l1 l2 Hsub IH|x l1 l2 Hsub IH]; intros Hs.
  - constructor.
  - apply StronglySorted_cons in Hs as [Hx Hs].
    apply StronglySorted_cons. split; [| by apply IH].
    rewrite Forall_forall in *. intros y Hy. apply Hx.
    by eapply elem_of_sublist.
  - apply StronglySorted_cons in Hs as [_ Hs]. by apply IH.
Qed.

Lemma imap_sorted (f : nat → float → nat * float * float) (n : nat)
    (l : list float) :
  (∀ i p, (f i p).1.1 = n + i) → StronglySorted before (imap f l).
Proof.
  revert f n. induction l as [|x l IH]; intros f n Hf; [constructor |].
  rewrite imap_cons. apply StronglySorted_cons. split.
  - apply Forall_forall. intros y Hy.
    apply list_elem_of_lookup in Hy as [i Hi].
    rewrite list_lookup_imap in Hi.
    destruct (l !! i) as [p|]; simplify_eq/=.
    unfold before. rewrite !Hf. lia.
  - apply (IH _ (S n)). intros i p. simpl. rewrite Hf. lia.
Qed.

Lemma lookup_join_price (ps tp : list float) (i : nat) (x : nat * float * float) :
  join_price ps tp !! i = Some x ↔
  ∃ p, ps !! i = Some p ∧ x = (i, p, default nan (tp !! i)).
Proof.
  unfold join_price. rewrite list_lookup_imap.
  destruct (ps !! i) as [p|]; simpl.
  - split; [intros [= <-]; eauto | by intros (p0 & [= <-] & ->)].
  - split; [discriminate | by intros (p0 & [=] & _)].
Qed.

Lemma elem_of_dropna_join (ps tp : list float) (x : nat * float * float) :
  x ∈ dropna (join_price ps tp) ↔
  ∃ p, ps !! x.1.1 = Some p ∧ x = (x.1.1, p, default nan (tp !! x.1.1)) ∧
       isnull p = false ∧ isnull (default nan (tp !! x.1.1)) = false.
Proof.
  unfold dropna. rewrite list_elem_of_filter, list_elem_of_lookup. split.
  - intros ([Hp Hq] & i & Hi). apply lookup_join_price in Hi as (p & Hp' & ->).
    simpl in *. eauto.
  - intros (p & Hp & Hx & Hnp & Hnq). rewrite Hx. simpl. split; [done |].
    exists x.1.1. apply lookup_join_price. eauto.
Qed.

Lemma dropna_sorted (ps tp : list float) :
  StronglySorted before (dropna (join_price ps tp)).
Proof.
  eapply StronglySorted_sublist; [apply sublist_filter |].
  by apply (imap_sorted _ 0).
Qed.

Lemma sorted_consecutive {A} (R : A → A → Prop) (l : list A) (k : nat) (x y : A) :
  StronglySorted R l → l !! k = Some x → l !! S k = Some y → R x y.
Proof.
  intros Hs Hx Hy. rewrite <- (take_drop (S k) l) in Hs.
  eapply StronglySorted_app_1_elem_of; [exact Hs | |].
  - apply list_elem_of_lookup. exists k. by rewrite lookup_take_lt by lia.
  - apply list_elem_of_lookup. exists 0. by rewrite lookup_drop, Nat.add_0_r.
Qed.

Lemma lookup_set_vol (t : list (nat * float * float)) (k : nat) (r : TradeRow) :
  set_vol t !! k = Some r ↔
  ∃ x v, t !! k = Some x ∧ diff (t.*1.*2) !! k = Some v ∧
         r = {| ts := x.1.1; pos := x.1.2; price := x.2; vol := v |}.
Proof.
  unfold set_vol. rewrite lookup_zip_with_Some. split.
  - intros (x & v & -> & Hx & Hv). by exists x, v.
  - intros (x & v & Hx & Hv & ->). by exists x, v.
Qed.

Lemma elem_of_set_vol_1 (t : list (nat * float * float)) (r : TradeRow) :
  r ∈ set_vol t → (ts r, pos r, price r) ∈ t.
Proof.
  intros [k Hk]%list_elem_of_lookup.
  apply lookup_set_vol in Hk as ([[i p] q] & v & Hx & _ & ->). simpl.
  apply list_elem_of_lookup. eauto.
Qed.

Lemma elem_of_set_vol_2 (t : list (nat * float * float)) (x : nat * float * float) :
  x ∈ t → ∃ r, r ∈ set_vol t ∧ ts r = x.1.1 ∧ pos r = x.1.2 ∧ price r = x.2.
Proof.
  intros [k Hk]%list_elem_of_lookup.
  destruct (lookup_lt_is_Some_2 (diff (t.*1.*2)) k) as [v Hv].
  { rewrite length_diff, !length_fmap. by eapply lookup_lt_Some. }
  exists {| ts := x.1.1; pos := x.1.2; price := x.2; vol := v |}.
  split; [| done]. apply list_elem_of_lookup. exists k.
  apply lookup_set_vol. eauto.
Qed.

Lemma trades_Ok (ps tp : list float) :
  trades (Ok ps) (Ok tp) = Ok (set_vol (dropna (join_price ps tp))).
Proof. reflexivity. Qed.

(** A row of the ledger is a surviving row of the join, and conversely. *)
Lemma elem_of_ledger (ps tp : list float) (i : nat) :
  (∃ r, r ∈ set_vol (dropna (join_price ps tp)) ∧ ts r = i) ↔
  ∃ p, ps !! i = Some p ∧ isnull p = false ∧
       isnull (default nan (tp !! i)) = false.
Proof.
  split.
  - intros (r & Hr & <-). apply elem_of_set_vol_1 in Hr.
    apply elem_of_dropna_join in Hr as (p & Hp & _ & Hnp & Hnq). eauto.
  - intros (p & Hp & Hnp & Hnq).
    destruct (elem_of_set_vol_2 (dropna (join_price ps tp))
                (i, p, default nan (tp !! i))) as (r & Hr & Hts & _).
    { apply elem_of_dropna_join. simpl. eauto. }
    eauto.
Qed.

Lemma ledger_row (ps tp : list float) (r : TradeRow) :
  r ∈ set_vol (dropna (join_price ps tp)) →
  ps !! ts r = Some (pos r) ∧ price r = default nan (tp !! ts r) ∧
  isnull (pos r) = false ∧ isnull (price r) = false.
Proof.
  intros Hr%elem_of_set_vol_1.
  apply elem_of_dropna_join in Hr as (p & Hp & Hx & Hnp & Hnq).
  simpl in *. injection Hx as -> ->. done.
Qed.

Lemma sorted_lookup_lt {A} (R : A → A → Prop) (l : list A) (i j : nat) (x y : A) :
  StronglySorted R l → l !! i = Some x → l !! j = Some y → i < j → R x y.
Proof.
  intros Hs Hx Hy Hij. rewrite <- (take_drop (S i) l) in Hs.
  eapply StronglySorted_app_1_elem_of; [exact Hs | |].
  - apply list_elem_of_lookup. exists i. by rewrite lookup_take_lt by lia.
  - apply list_elem_of_lookup. exists (j - S i).
    rewrite lookup_drop. by replace (S i + (j - S i)) with j by lia.
Qed.

Lemma ledger_ts_inj (ps tp : list float) (i j : nat) (r r' : TradeRow) :
  set_vol (dropna (join_price ps tp)) !! i = Some r →
  set_vol (dropna (join_price ps tp)) !! j = Some r' →
  ts r = ts r' → i = j.
Proof.
  intros (x & v & Hx & _ & ->)%lookup_set_vol
         (x' & v' & Hx' & _ & ->)%lookup_set_vol. simpl. intros Hts.
  pose proof (dropna_sorted ps tp) as Hs.
  destruct (Nat.lt_trichotomy i j) as [Hlt|[Heq|Hgt]]; [| done |].
  - pose proof (sorted_lookup_lt before _ i j x x' Hs Hx Hx' Hlt) as Hb.
    unfold before in Hb. lia.
  - pose proof (sorted_lookup_lt before _ j i x' x Hs Hx' Hx Hgt) as Hb.
    unfold before in Hb. lia.
Qed.

(** C1: the ledger that [trades] returns has one row for each surviving
    timestamp, that is each timestamp where position and price are both
    defined, in timestamp order, and its volume column is the first
    difference of its position column: the first row is the first
    surviving timestamp and its volume is NaN; every later row is the
    next surviving timestamp after the row before it, and its volume is
    the position there minus the position at that preceding surviving
    row. *)
Theorem trades_vol_is_diff_of_pos (ps tp : list float) :
  ∃ t, trades (Ok ps) (Ok tp) = Ok t ∧
       (∀ i, (∃ r, r ∈ t ∧ ts r = i) ↔ survives ps tp i) ∧
       (∀ r, r ∈ t → ps !! ts r = Some (pos r)) ∧
       vol <$> t = diff (pos <$> t) ∧
       (∀ r, t !! 0 = Some r →
             vol r = nan ∧ ∀ i, i < ts r → ¬ survives ps tp i) ∧
       (∀ k r' r, t !! k = Some r' → t !! S k = Some r →
                  vol r = (pos r - pos r')%float ∧ ts r' < ts r ∧
                  ∀ i, ts r' < i → i < ts r → ¬ survives ps tp i).
Proof.
  exists (set_vol (dropna (join_price ps tp))). split; [apply trades_Ok |].
  set (K := dropna (join_price ps tp)).
  assert (pos <$> set_vol K = K.*1.*2) as Hpos.
  { unfold set_vol. rewrite <- !list_fmap_compose.
    apply list_eq. intros k. rewrite !list_lookup_fmap, lookup_zip_with.
    destruct (K !! k) as [x|] eqn:Hx; [| done]. simpl.
    destruct (lookup_lt_is_Some_2 (diff (K.*1.*2)) k) as [v Hv].
    { rewrite length_diff, !length_fmap. by eapply lookup_lt_Some. }
    rewrite <- list_fmap_compose in Hv. by rewrite Hv. }
  assert (∀ i, survives ps tp i → ∃ j r, set_vol K !! j = Some r ∧ ts r = i)
    as Hrow.
  { intros i (r & Hr & Hts)%elem_of_ledger.
    apply list_elem_of_lookup in Hr as [j Hj]. eauto. }
  assert (∀ j k r1 r2, set_vol K !! j = Some r1 → set_vol K !! k = Some r2 →
                       j < k → ts r1 < ts r2) as Hmono.
  { intros j k r1 r2 (x1 & v1 & Hx1 & _ & ->)%lookup_set_vol
           (x2 & v2 & Hx2 & _ & ->)%lookup_set_vol Hjk. simpl.
    exact (sorted_lookup_lt before K j k x1 x2 (dropna_sorted ps tp)
             Hx1 Hx2 Hjk). }
  split; [apply elem_of_ledger |]. split.
  { intros r Hr. by apply ledger_row in Hr as (? & _). }
  split.
  { rewrite Hpos. unfold set_vol. apply fmap_zip_with_r; [done |].
    by rewrite length_diff, !length_fmap. }
  split.
  - intros r Hr0. split.
    + apply lookup_set_vol in Hr0 as (x & v & Hx & Hv & ->). simpl.
      erewrite lookup_diff_first in Hv; [by injection Hv as <- |].
      by rewrite !list_lookup_fmap, Hx.
    + intros i Hi (j & r1 & Hj & Hts)%Hrow.
      destruct j as [|j].
      * rewrite Hr0 in Hj. injection Hj as <-. lia.
      * pose proof (Hmono 0 (S j) r r1 Hr0 Hj ltac:(lia)). lia.
  - intros k r' r Hr' Hr. split; [| split].
    + apply lookup_set_vol in Hr' as (x' & v' & Hx' & _ & ->).
      apply lookup_set_vol in Hr as (x & v & Hx & Hv & ->). simpl.
      erewrite lookup_diff_next in Hv; [by injection Hv as <- | |];
        by rewrite !list_lookup_fmap, ?Hx, ?Hx'.
    + apply (Hmono k (S k) r' r); [done | done | lia].
    + intros i Hlo Hhi (j & r1 & Hj & Hts)%Hrow.
      destruct (Nat.lt_trichotomy j k) as [Hlt|[->|Hgt]].
      * pose proof (Hmono j k r1 r' Hj Hr' Hlt). lia.
      * rewrite Hr' in Hj. injection Hj as <-. lia.
      * destruct (decide (j = S k)) as [->|Hne].
        -- rewrite Hr in Hj. injection Hj as <-. lia.
        -- pose proof (Hmono (S k) j r r1 Hr Hj ltac:(lia)). lia.
Qed.

(** A ledger with gaps: the position is missing at t0 and t3, the price at
    t2; the rows are t1 and t4, and the volume at t4 is the change of
    position since t1. *)
Example trades_example_gaps :
  trades (Ok [nan; 1; 1; nan; 0]%float) (Ok [5; 6; nan; 8; 9]%float)
  = Ok [{| ts := 1; pos := 1; price := 6; vol := nan |};
        {| ts := 4; pos := 0; price := 9; vol := -1 |}].
Proof. reflexivity. Qed.

(** C2, as the code has it: a timestamp is a row of the ledger exactly
    when both the position and the trade price are defined there; it is
    discarded when the position is NaN, and also when the price is NaN.
    Each surviving timestamp is one row, carrying that position and
    price. *)
Theorem ledger_keeps_defined_position_and_price (ps tp : list float) :
  ∃ t, trades (Ok ps) (Ok tp) = Ok t ∧
       (∀ i, (∃ r, r ∈ t ∧ ts r = i) ↔
             ∃ p, ps !! i = Some p ∧ isnull p = false ∧
                  isnull (default nan (tp !! i)) = false) ∧
       (∀ r, r ∈ t → ps !! ts r = Some (pos r) ∧
                     price r = default nan (tp !! ts r)) ∧
       NoDup (ts <$> t).
Proof.
  exists (set_vol (dropna (join_price ps tp))). split; [apply trades_Ok |].
  split; [apply elem_of_ledger |]. split.
  - intros r Hr. by apply ledger_row in Hr as (? & ? & _).
  - set (K := dropna (join_price ps tp)).
    assert (ts <$> set_vol K = K.*1.*1) as ->.
    { unfold set_vol. rewrite <- !list_fmap_compose.
      apply list_eq. intros k. rewrite !list_lookup_fmap, lookup_zip_with.
      destruct (K !! k) as [x|] eqn:Hx; [| done]. simpl.
      destruct (lookup_lt_is_Some_2 (diff (K.*1.*2)) k) as [v Hv].
      { rewrite length_diff, !length_fmap. by eapply lookup_lt_Some. }
      rewrite <- list_fmap_compose in Hv. by rewrite Hv. }
    pose proof (dropna_sorted ps tp) as Hs. fold K in Hs.
    induction Hs as [|x l Hs IH Hx]; [constructor |].
    simpl. constructor; [| done].
    intros Hin. rewrite <- list_fmap_compose in Hin.
    apply list_elem_of_fmap in Hin as (y & Hy1 & Hy2).
    rewrite Forall_forall in Hx. specialize (Hx y Hy2).
    unfold before in Hx. simpl in Hy1. lia.
Qed.

(** The claim C2 as stated fails: with positions [1; 1] and the default
    price of the opens [10; 11], the last timestamp has a defined position
    but no price, and is not a row of the ledger. *)
Lemma ledger_drops_defined_position :
  let self := {| _dataobj := {[ "ohlc" := PyFrame {| index := 2;
                                 columns := {[ "O" := [10; 11]%float ]} |} ]};
                 _sig_mask_ext := default_signal_fields;
                 _pr_mask_ext := default_price_fields; name := "Unknown" |} in
  isnull 1 = false ∧
  trades (Ok [1; 1]%float) (trade_price self (Ok None) (Ok None))
  = Ok [{| ts := 0; pos := 1; price := 11; vol := nan |}].
Proof. split; reflexivity. Qed.

(** C10: every row of the ledger has a price that is not NaN; a timestamp
    whose trade price is NaN is not a row of the ledger, whatever the
    position there.  Without price fields the trade price is the open of
    the next bar, so the ledger stops before the last bar of the bars
    table. *)
Theorem ledger_rows_have_a_price
    (self : Backtest) (sg : result (option (DataFrame bool)))
    (ps : list float) (o : pyobj) (O : list float) :
  ohlc self = Ok o →
  getattr o "O" = Ok O →
  (∀ tp, ∃ t, trades (Ok ps) (Ok tp) = Ok t ∧
              (∀ r, r ∈ t → isnull (price r) = false) ∧
              (∀ i, isnull (default nan (tp !! i)) = true →
                    ∀ r, r ∈ t → ts r ≠ i)) ∧
  (∃ t, trades (Ok ps) (trade_price self sg (Ok None)) = Ok t ∧
        ∀ r, r ∈ t → isnull (price r) = false ∧ S (ts r) < length O).
Proof.
  intros Ho HO. split.
  - intros tp. exists (set_vol (dropna (join_price ps tp))).
    split; [apply trades_Ok |]. split.
    + intros r Hr. by apply ledger_row in Hr as (_ & _ & _ & ?).
    + intros i Hi r Hr <-. apply ledger_row in Hr as (_ & Hp & _ & Hn).
      rewrite Hp in Hn. congruence.
  - destruct (trade_price_is_default_without_prices_aux self sg o O Ho HO) as [_ Htp].
    rewrite Htp. exists (set_vol (dropna (join_price ps (shift (-1) O)))).
    split; [apply trades_Ok |].
    intros r Hr. apply ledger_row in Hr as (_ & Hp & _ & Hn).
    split; [done |]. rewrite Hp in Hn.
    destruct (decide (S (ts r) < length O)) as [|Hge]; [done | exfalso].
    destruct (decide (S (ts r) = length O)) as [Hlast|Hout].
    + rewrite (lookup_shift_back_last _ _ Hlast) in Hn. discriminate Hn.
    + rewrite lookup_ge_None_2 in Hn by (rewrite length_shift; lia).
      discriminate Hn.
Qed.

(** ** The trade price with price fields *)

Lemma setitem_getitem (dp p : list float) (s : list bool) :
  length dp ≤ length s → length p ≤ length s →
  bool_getitem p s ≫= bool_setitem dp s = Ok (masked dp s p).
Proof.
  intros Hdp Hp. unfold bool_getitem, bool_setitem.
  destruct (decide (length s < length p)); [lia |]. rewrite bind_Ok.
  destruct (decide (length s < length dp)); [lia |]. f_equal.
  apply imap_ext. intros i x _. simpl.
  destruct (decide (s !! i = Some true)) as [Hs|]; [| done].
  rewrite map_lookup_filter, lookup_map_seq_0.
  destruct (p !! i) as [y|]; simpl; [| done].
  by rewrite option_guard_True.
Qed.

Lemma length_masked (dp : list float) s p : length (masked dp s p) = length dp.
Proof. apply length_imap. Qed.

Lemma assign_prices_Ok (sg : DataFrame bool) (pr : DataFrame float)
    pairs cols (dp : list float) :
  length dp = index pr →
  price_columns sg pr pairs cols →
  assign_prices (Ok (Some sg)) (Ok (Some pr)) pairs dp
  = Ok (foldl (λ dp sp, masked dp sp.1 sp.2) dp cols).
Proof.
  intros Hlen Hread. revert dp Hlen.
  induction Hread as [|[pf sf] [s p] pairs cols (Hs & Hp & Hsp & Hidx) _ IH];
    intros dp Hlen; [done |].
  simpl in *.
  rewrite Hs, bind_Ok, Hp, bind_Ok.
  pose proof (setitem_getitem dp p s ltac:(lia) ltac:(lia)) as Hset.
  destruct (bool_getitem p s) as [v|e]; [| discriminate Hset].
  rewrite bind_Ok in Hset |- *. rewrite Hset, bind_Ok.
  apply IH. by rewrite length_masked.
Qed.

Lemma lookup_masked (dp : list float) s p (t : nat) :
  masked dp s p !! t =
  (λ x, if decide (s !! t = Some true) then default nan (p !! t) else x)
    <$> dp !! t.
Proof. unfold masked. by rewrite list_lookup_imap. Qed.

Lemma lookup_passes (cols : list (list bool * list float)) (dp : list float)
    (t : nat) :
  foldl (λ dp sp, masked dp sp.1 sp.2) dp cols !! t
  = price_at t cols <$> dp !! t.
Proof.
  revert dp. induction cols as [|[s p] cols IH]; intros dp; simpl.
  - by destruct (dp !! t).
  - rewrite IH, lookup_masked. by destruct (dp !! t).
Qed.

Lemma price_at_snoc t cols sp acc :
  price_at t (cols ++ [sp]) acc =
  if decide (sp.1 !! t = Some true) then default nan (sp.2 !! t)
  else price_at t cols acc.
Proof. unfold price_at. by rewrite foldl_app. Qed.

Lemma last_true_snoc_false t k cols sp :
  sp.1 !! t ≠ Some true → last_true t k cols → last_true t k (cols ++ [sp]).
Proof.
  intros Hsp Hlast j sp' Hj Hlook.
  apply lookup_app_Some in Hlook as [Hl|[_ Hr]]; [by eapply Hlast |].
  apply list_lookup_singleton_Some in Hr as [_ <-]. done.
Qed.

(** The last pair whose signal is true at [t] gives the cell. *)
Lemma price_at_last t cols acc k s p :
  cols !! k = Some (s, p) → s !! t = Some true → last_true t k cols →
  price_at t cols acc = default nan (p !! t).
Proof.
  revert k. induction cols as [|sp cols IH] using rev_ind; intros k Hk Hs Hlast.
  { done. }
  rewrite price_at_snoc.
  apply lookup_app_Some in Hk as [Hk|[Hlen Hk]].
  - destruct (decide (sp.1 !! t = Some true)) as [Hsp|Hsp].
    + destruct (Hlast (length cols) sp); [by eapply lookup_lt_Some | | done].
      by apply list_lookup_middle.
    + apply (IH k); [done | done |].
      intros j sp' Hj Hlook. apply (Hlast j sp' Hj).
      by apply lookup_app_l_Some.
  - apply list_lookup_singleton_Some in Hk as [_ ->]. simpl.
    by rewrite decide_True.
Qed.

(** When no signal is true at [t], or the last one that is true has a
    missing price, the cell stays missing. *)
Lemma price_at_missing t cols acc :
  isnull acc = true →
  (∀ k s p, cols !! k = Some (s, p) → s !! t = Some true →
            last_true t k cols → isnull (default nan (p !! t)) = true) →
  isnull (price_at t cols acc) = true.
Proof.
  intros Hacc. induction cols as [|sp cols IH] using rev_ind; intros H.
  { done. }
  rewrite price_at_snoc.
  destruct (decide (sp.1 !! t = Some true)) as [Hsp|Hsp].
  - destruct sp as [s p]. apply (H (length cols) s p); [| done |].
    + by apply list_lookup_middle.
    + intros j sp' Hj Hlook. apply lookup_lt_Some in Hlook.
      rewrite length_app in Hlook. simpl in Hlook. lia.
  - apply IH. intros k s p Hk Hs Hlast. apply (H k s p); [| done |].
    + by apply lookup_app_l_Some.
    + by apply last_true_snoc_false.
Qed.

Lemma trade_price_Ok (self : Backtest) (sg : DataFrame bool)
    (pr : DataFrame float) cols (d : list float) :
  price_columns sg pr (zip _pr_mask_int _sig_mask_int) cols →
  default_price self = Ok d →
  trade_price self (Ok (Some sg)) (Ok (Some pr))
  = Ok (combine_first
          (foldl (λ dp sp, masked dp sp.1 sp.2) (empty_series (index pr)) cols)
          d).
Proof.
  intros Hcols Hd. unfold trade_price. rewrite bind_Ok.
  rewrite (assign_prices_Ok sg pr _ cols); [| apply length_replicate | done].
  by rewrite bind_Ok, Hd.
Qed.

Lemma lookup_trade_price (pr : DataFrame float) cols (d : list float) (t : nat) :
  t < index pr →
  combine_first
    (foldl (λ dp sp, masked dp sp.1 sp.2) (empty_series (index pr)) cols) d
    !! t
  = Some (let x := price_at t cols nan in
          if isnull x then default nan (d !! t) else x).
Proof.
  intros Ht.
  assert (length (foldl (λ dp sp, masked dp sp.1 sp.2)
                    (empty_series (index pr)) cols) = index pr) as Hlen.
  { assert (∀ dp : list float, length dp = index pr →
              length (foldl (λ dp sp, masked dp sp.1 sp.2) dp cols) = index pr)
      as Hgen.
    { induction cols as [|sp cols IH]; intros dp Hdp; [done |].
      simpl. apply IH. by rewrite length_masked. }
    apply Hgen, length_replicate. }
  rewrite lookup_combine_first by (rewrite Hlen; lia).
  rewrite lookup_passes. unfold empty_series.
  by rewrite lookup_replicate_2.
Qed.

Lemma price_columns_frames (b s sh c : list bool) (pb ps psh pc : list float) :
  length pb = length ps → length pb = length psh → length pb = length pc →
  length pb ≤ length b → length pb ≤ length s → length pb ≤ length sh →
  length pb ≤ length c →
  price_columns (signal_frame b s sh c) (price_frame pb ps psh pc)
                (zip _pr_mask_int _sig_mask_int)
                [(b, pb); (s, ps); (sh, psh); (c, pc)].
Proof.
  intros. unfold price_columns. simpl.
  repeat (constructor; [repeat split; simpl; try done; lia |]). constructor.
Qed.

(** C4, as the code has it: with price fields present, the trade price at a
    timestamp is the explicit price paired with the last signal, in the
    order Buy, Sell, Short, Cover, that is true there, when that price is
    not missing; at every other timestamp (no signal true, or the price of
    the last true signal missing) it is the default price. *)
Theorem trade_price_of_last_true_signal
    (self : Backtest) (sg : DataFrame bool) (pr : DataFrame float)
    (cols : list (list bool * list float)) (d : list float) :
  price_columns sg pr (zip _pr_mask_int _sig_mask_int) cols →
  default_price self = Ok d →
  ∃ tp, trade_price self (Ok (Some sg)) (Ok (Some pr)) = Ok tp ∧
        ∀ t, t < index pr →
          (∀ k s p, cols !! k = Some (s, p) → s !! t = Some true →
                    isnull (default nan (p !! t)) = false →
                    last_true t k cols →
                    tp !! t = Some (default nan (p !! t))) ∧
          ((∀ k s p, cols !! k = Some (s, p) → s !! t = Some true →
                     last_true t k cols →
                     isnull (default nan (p !! t)) = true) →
           tp !! t = Some (default nan (d !! t))).
Proof.
  intros Hcols Hd. eexists. split; [by apply (trade_price_Ok self sg pr cols) |].
  intros t Ht. rewrite lookup_trade_price by done. cbv zeta. split.
  - intros k s p Hk Hs Hp Hlast.
    rewrite (price_at_last t cols nan k s p Hk Hs Hlast). by rewrite Hp.
  - intros Hmiss. by rewrite (price_at_missing t cols nan eq_refl Hmiss).
Qed.

Ltac each_pair k :=
  destruct k as [|[|[|[|k]]]]; simpl in *; try discriminate; try lia.

Lemma trade_price_of_last_true_signal_scenario :
  ∃ tp, trade_price (backtest_of_bars [9; 10; 11; 12]%float)
          (Ok (Some scenario_signals)) (Ok (Some scenario_prices)) = Ok tp ∧
        tp !! 0 = Some 10%float ∧ tp !! 1 = Some 9.5%float ∧
        tp !! 2 = Some 12%float ∧ tp !! 3 = Some nan.
Proof.
  destruct (trade_price_of_last_true_signal
              (backtest_of_bars [9; 10; 11; 12]%float)
              scenario_signals scenario_prices scenario_columns
              [10; 11; 12; nan]%float) as (tp & Htp & H).
  - apply price_columns_frames; simpl; lia.
  - reflexivity.
  - exists tp. split; [exact Htp |].
    assert (∀ t, t < 4 → t ≠ 1 → tp !! t = Some (default nan ([10; 11; 12; nan]%float !! t)))
      as Hdefault.
    { intros t Ht Hne. apply (H t Ht). intros k s p Hk Hs _.
      each_pair k; injection Hk as <- <-;
        destruct t as [|[|[|[|t]]]]; simpl in *; try discriminate; lia. }
    split; [apply (Hdefault 0); lia |].
    split; [| split; [apply (Hdefault 2); lia | apply (Hdefault 3); lia]].
    apply (proj1 (H 1 ltac:(simpl; lia)) 0 [false; true; false; false]
                 [nan; 9.5; nan; nan]%float); try reflexivity.
    intros j sp Hj Hsp. each_pair j; by injection Hsp as <-.
Defined.

(** The same scenario evaluated: 9.5 at t1, the default price elsewhere. *)
Example trade_price_scenario_value :
  default_price (backtest_of_bars [9; 10; 11; 12]%float)
  = Ok [10; 11; 12; nan]%float ∧
  trade_price (backtest_of_bars [9; 10; 11; 12]%float)
    (Ok (Some scenario_signals)) (Ok (Some scenario_prices))
  = Ok [10; 9.5; 12; nan]%float.
Proof. split; reflexivity. Qed.

(** The claim C4 as stated fails: at t0 Buy is true with the explicit
    price 9.5, Sell is true as well with a missing price, and the trade
    price is the default price 11, not 9.5. *)
Lemma explicit_price_lost_to_later_signal :
  trade_price (backtest_of_bars [10; 11]%float)
    (Ok (Some (signal_frame [true; false] [true; false]
                 [false; false] [false; false])))
    (Ok (Some (price_frame [9.5; nan]%float [nan; nan] [nan; nan] [nan; nan])))
  = Ok [11; nan]%float ∧
  [11; nan]%float !! 0 ≠ Some 9.5%float.
Proof.
  split; [reflexivity |]. intros H.
  apply (f_equal (from_option (PrimFloat.eqb 11) false)) in H.
  vm_compute in H. discriminate H.
Qed.

(** C5, as the code has it: when more than one pair has its signal true
    with an explicit price at a timestamp, the pair latest in the order
    BuyPrice, SellPrice, ShortPrice, CoverPrice decides the trade price;
    a later pass of the loop overwrites the cell an earlier one set. *)
Theorem trade_price_later_pair_overwrites
    (self : Backtest) (sg : DataFrame bool) (pr : DataFrame float)
    (cols : list (list bool * list float)) (d : list float)
    (t j k : nat) (sj sk : list bool) (pj pk : list float) :
  price_columns sg pr (zip _pr_mask_int _sig_mask_int) cols →
  default_price self = Ok d →
  t < index pr →
  j < k →
  cols !! j = Some (sj, pj) → cols !! k = Some (sk, pk) →
  sj !! t = Some true → isnull (default nan (pj !! t)) = false →
  sk !! t = Some true → isnull (default nan (pk !! t)) = false →
  last_true t k cols →
  ∃ tp, trade_price self (Ok (Some sg)) (Ok (Some pr)) = Ok tp ∧
        tp !! t = Some (default nan (pk !! t)).
Proof.
  intros Hcols Hd Ht _ _ Hk _ _ Hsk Hpk Hlast.
  eexists. split; [by apply (trade_price_Ok self sg pr cols) |].
  rewrite lookup_trade_price by done. cbv zeta.
  rewrite (price_at_last t cols nan k sk pk Hk Hsk Hlast). by rewrite Hpk.
Qed.

Lemma trade_price_later_pair_overwrites_overlap :
  ∃ tp, trade_price (backtest_of_bars [10; 11]%float)
          (Ok (Some overlap_signals)) (Ok (Some overlap_prices)) = Ok tp ∧
        tp !! 0 = Some 9.75%float.
Proof.
  apply (trade_price_later_pair_overwrites
           (backtest_of_bars [10; 11]%float) overlap_signals overlap_prices
           [([true; false], [9.5; nan]%float);
            ([true; false], [9.75; nan]%float);
            ([false; false], [nan; nan]); ([false; false], [nan; nan])]
           [11; nan]%float 0 0 1
           [true; false] [true; false] [9.5; nan]%float [9.75; nan]%float);
    try reflexivity.
  - apply price_columns_frames; simpl; lia.
  - simpl; lia.
  - lia.
  - intros j sp Hj Hsp. each_pair j; by injection Hsp as <-.
Defined.

(** The claim C5 as stated fails: with Buy and Sell both true at t0 and
    the explicit prices 9.5 and 9.75, the trade price is 9.75, the price
    of the later pair, not the 9.5 of the earlier one. *)
Lemma earlier_pair_is_overwritten :
  trade_price (backtest_of_bars [10; 11]%float)
    (Ok (Some overlap_signals)) (Ok (Some overlap_prices))
  = Ok [9.75; nan]%float ∧
  [9.75; nan]%float !! 0 ≠ Some 9.5%float.
Proof.
  split; [reflexivity |]. intros H.
  apply (f_equal (from_option (PrimFloat.eqb 9.75) false)) in H.
  vm_compute in H. discriminate H.
Qed.

(** ** The position reconstructor *)

Section Reconstructor.
Import parts.

Lemma step_not_fired (st : State) (sig : Signal) :
  (step st sig).2 = false → (step st sig).1 = st.
Proof.
  destruct sig as [[] [] [] []], st; unfold step, on_short, on_sell, on_buy,
    on_cover; simpl; intros; done.
Qed.

Lemma run_from_snoc (st : State) (rows : list Signal) (sig : Signal) :
  run_from st (rows ++ [sig]) = (step (run_from st rows) sig).1.
Proof. unfold run_from. by rewrite foldl_app. Qed.

Lemma lookup_scan (rows : list Signal) (st : State) (traded : bool) (t : nat) :
  t < length rows →
  scan st traded rows !! t =
  Some (if traded || any_fired st (take (S t) rows)
        then value (run_from st (take (S t) rows)) else nan).
Proof.
  revert st traded t.
  induction rows as [|sig rows IH]; intros st traded t Ht; simpl in Ht; [lia |].
  destruct t as [|t]; simpl.
  - by rewrite orb_false_r.
  - rewrite IH by lia. by rewrite orb_assoc.
Qed.

Lemma any_fired_true (rows : list Signal) (st : State) :
  any_fired st rows = true ↔
  ∃ u sig, rows !! u = Some sig ∧
           (step (run_from st (take u rows)) sig).2 = true.
Proof.
  revert st. induction rows as [|sig rows IH]; intros st; simpl.
  - split; [discriminate | intros (u & s & Hu & _); by destruct u].
  - rewrite orb_true_iff, IH. split.
    + intros [H|(u & s & Hu & H)]; [by exists 0, sig | by exists (S u), s].
    + intros ([|u] & s & Hu & H); simpl in *.
      * left. by injection Hu as <-.
      * right. eauto.
Qed.

Lemma any_fired_take (rows : list Signal) (t : nat) :
  any_fired Flat (take (S t) rows) = true ↔
  ∃ u, u ≤ t ∧ fires_at rows u = true.
Proof.
  rewrite any_fired_true. unfold fires_at, state_before. split.
  - intros (u & sig & Hu & H).
    apply lookup_take_Some in Hu as [Hu Hlt].
    exists u. split; [lia |]. rewrite Hu.
    by rewrite take_take, Nat.min_l in H by lia.
  - intros (u & Hle & H). destruct (rows !! u) as [sig|] eqn:Hu; [| done].
    exists u, sig. split; [by rewrite lookup_take_lt by lia |].
    by rewrite take_take, Nat.min_l by lia.
Qed.

Lemma any_fired_take_lt (rows : list Signal) (t : nat) :
  any_fired Flat (take t rows) = true →
  ∃ u, u < t ∧ fires_at rows u = true.
Proof.
  destruct t as [|t]; [by rewrite take_0 |].
  intros (u & Hu & H)%any_fired_take. exists u. split; [lia | done].
Qed.

Lemma any_fired_false_run (rows : list Signal) (st : State) :
  any_fired st rows = false → run_from st rows = st.
Proof.
  revert st. induction rows as [|sig rows IH]; intros st; simpl; [done |].
  intros [H1 H2]%orb_false_iff. unfold run_from in *. simpl.
  rewrite (step_not_fired _ _ H1) in *. by apply IH.
Qed.

Lemma length_scan (rows : list Signal) (st : State) (traded : bool) :
  length (scan st traded rows) = length rows.
Proof.
  revert st traded. induction rows as [|sig rows IH]; intros; simpl; [done |].
  by rewrite IH.
Qed.

Lemma length_signal_rows n b s sh c : length (signal_rows n b s sh c) = n.
Proof. unfold signal_rows. by rewrite length_fmap, length_seq. Qed.

End Reconstructor.

Lemma positions_Ok (sg : DataFrame bool) (b s sh c : list bool) :
  signal_columns sg b s sh c →
  positions (Ok (Some sg))
  = Ok (parts.reconstruct (parts.signal_rows (index sg) b s sh c)).
Proof.
  intros (Hb & Hs & Hsh & Hc). unfold positions, parts.signals_to_positions.
  rewrite bind_Ok. simpl. by rewrite Hb, bind_Ok, Hs, bind_Ok, Hsh, bind_Ok, Hc.
Qed.

(** C7: the position series is NaN, and not zero, at every timestamp up to
    which no signal has caused a transition, that is, strictly before the
    first transition; from the first transition on it is +1 while the state
    is Long, -1 while Short and 0 while Flat. *)
Theorem positions_undefined_before_first_transition
    (sg : DataFrame bool) (b s sh c : list bool) :
  signal_columns sg b s sh c →
  ∃ ps rows,
    positions (Ok (Some sg)) = Ok ps ∧
    rows = parts.signal_rows (index sg) b s sh c ∧
    length ps = index sg ∧
    ∀ t, t < index sg →
      ((∀ u, u ≤ t → parts.fires_at rows u = false) →
       ps !! t = Some nan ∧ ps !! t ≠ Some 0%float) ∧
      ((∃ u, u ≤ t ∧ parts.fires_at rows u = true) →
       ps !! t = Some (match parts.state_after rows t with
                       | parts.Long => 1%float
                       | parts.Short => (-1)%float
                       | parts.Flat => 0%float
                       end)).
Proof.
  intros Hcols. eexists _, _. split; [by apply positions_Ok |].
  split; [reflexivity |].
  set (rows := parts.signal_rows (index sg) b s sh c).
  assert (length rows = index sg) as Hlen by apply length_signal_rows.
  split; [unfold parts.reconstruct; by rewrite length_scan |].
  intros t Ht. unfold parts.reconstruct.
  rewrite lookup_scan by lia. simpl. split.
  - intros Hnone.
    destruct (parts.any_fired parts.Flat (take (S t) rows)) eqn:Hf.
    + apply any_fired_take in Hf as (u & Hu & Hfu).
      rewrite (Hnone u Hu) in Hfu. discriminate Hfu.
    + split; [done |]. intros H.
      apply (f_equal (from_option isnull false)) in H.
      vm_compute in H. discriminate H.
  - intros Hsome. apply any_fired_take in Hsome. by rewrite Hsome.
Qed.

(** Two neighbouring timestamps that both survive [dropna] are neighbouring
    rows of the ledger, and the volume of the second is the change of
    position between them. *)
Lemma ledger_adjacent (ps tp : list float) (t : nat) (p' p : float) :
  ps !! t = Some p' → ps !! S t = Some p →
  isnull p' = false → isnull p = false →
  isnull (default nan (tp !! t)) = false →
  isnull (default nan (tp !! S t)) = false →
  ∃ k r' r,
    set_vol (dropna (join_price ps tp)) !! k = Some r' ∧
    set_vol (dropna (join_price ps tp)) !! S k = Some r ∧
    ts r' = t ∧ ts r = S t ∧ pos r' = p' ∧ pos r = p ∧
    vol r = (p - p')%float.
Proof.
  intros Hp' Hp Hn' Hn Hq' Hq.
  set (x' := (t, p', default nan (tp !! t))).
  set (x := (S t, p, default nan (tp !! S t))).
  set (J := join_price ps tp).
  assert (J !! t = Some x') as Hx' by (apply lookup_join_price; eauto).
  assert (J !! S t = Some x) as Hx by (apply lookup_join_price; eauto).
  assert (J = take t J ++ x' :: x :: drop (S (S t)) J) as HJ.
  { rewrite <- (take_drop_middle J t x' Hx') at 1.
    by rewrite (drop_S J x (S t) Hx). }
  set (K1 := dropna (take t J)).
  assert (dropna J = K1 ++ x' :: x :: dropna (drop (S (S t)) J)) as HK.
  { rewrite HJ at 1. unfold dropna, K1. rewrite filter_app.
    rewrite (filter_cons_True _ x') by done.
    by rewrite (filter_cons_True _ x) by done. }
  assert (dropna J !! length K1 = Some x') as Hk'.
  { rewrite HK. by apply list_lookup_middle. }
  assert (dropna J !! S (length K1) = Some x) as Hk.
  { rewrite HK. rewrite (lookup_app_r K1) by lia.
    by replace (S (length K1) - length K1) with 1 by lia. }
  destruct (lookup_lt_is_Some_2 (diff ((dropna J).*1.*2)) (length K1)) as [v' Hv'].
  { rewrite length_diff, !length_fmap. by eapply lookup_lt_Some. }
  exists (length K1), {| ts := t; pos := p'; price := x'.2; vol := v' |},
         {| ts := S t; pos := p; price := x.2; vol := (p - p')%float |}.
  split; [apply lookup_set_vol; by exists x', v' |].
  split; [| done]. apply lookup_set_vol. exists x, (p - p')%float.
  split; [done |]. split; [| done].
  apply lookup_diff_next; by rewrite !list_lookup_fmap, ?Hk, ?Hk'.
Qed.

(** C8, as far as it holds: when a bar is entered in the state Long and
    Buy is true there with neither Sell nor Short, no transition is taken,
    the state is still Long and the position is 1 as at the bar before.
    When the trade price is defined at this bar and at the bar before, the
    bar is a row of the ledger and its volume is zero. *)
Theorem repeated_buy_keeps_long
    (sg : DataFrame bool) (b s sh c : list bool) (tp : list float)
    (t : nat) (sig : parts.Signal) :
  signal_columns sg b s sh c →
  parts.signal_rows (index sg) b s sh c !! t = Some sig →
  parts.state_before (parts.signal_rows (index sg) b s sh c) t = parts.Long →
  parts.buy sig = true → parts.sell sig = false → parts.short sig = false →
  ∃ ps rows,
    positions (Ok (Some sg)) = Ok ps ∧
    rows = parts.signal_rows (index sg) b s sh c ∧
    parts.fires_at rows t = false ∧
    parts.state_after rows t = parts.Long ∧
    0 < t ∧ ps !! (t - 1) = Some 1%float ∧ ps !! t = Some 1%float ∧
    (isnull (default nan (tp !! (t - 1))) = false →
     isnull (default nan (tp !! t)) = false →
     ∃ ledger k r' r,
       trades (Ok ps) (Ok tp) = Ok ledger ∧
       ledger !! k = Some r' ∧ ledger !! S k = Some r ∧
       ts r' = t - 1 ∧ ts r = t ∧ vol r = 0%float).
Proof.
  intros Hcols Hsig Hbefore Hbuy Hsell Hshort.
  set (rows := parts.signal_rows (index sg) b s sh c) in *.
  assert (parts.step parts.Long sig = (parts.Long, false)) as Hstep.
  { destruct sig as [bu se sho co]. simpl in *. subst. by destruct co. }
  assert (0 < t) as Hpos.
  { destruct t; [| lia]. unfold parts.state_before in Hbefore.
    rewrite take_0 in Hbefore. discriminate Hbefore. }
  assert (parts.state_after rows t = parts.Long) as Hafter.
  { unfold parts.state_after. rewrite (take_S_r rows t sig Hsig).
    rewrite run_from_snoc. fold (parts.state_before rows t).
    by rewrite Hbefore, Hstep. }
  assert (parts.any_fired parts.Flat (take t rows) = true) as Hfired.
  { destruct (parts.any_fired parts.Flat (take t rows)) eqn:Hf; [done |].
    apply any_fired_false_run in Hf. unfold parts.state_before in Hbefore.
    congruence. }
  assert (t < length rows) as Ht by (by eapply lookup_lt_Some).
  assert (parts.reconstruct rows !! (t - 1) = Some 1%float) as Hprev.
  { unfold parts.reconstruct. rewrite lookup_scan by lia.
    replace (S (t - 1)) with t by lia. rewrite Hfired. simpl.
    unfold parts.state_before in Hbefore. by rewrite Hbefore. }
  assert (parts.reconstruct rows !! t = Some 1%float) as Hcur.
  { unfold parts.reconstruct. rewrite lookup_scan by lia. simpl.
    assert (parts.any_fired parts.Flat (take (S t) rows) = true) as ->.
    { apply any_fired_take.
      apply any_fired_take_lt in Hfired as (u & Hu & Hfu). exists u.
      split; [lia | done]. }
    unfold parts.state_after in Hafter. by rewrite Hafter. }
  eexists _, _. split; [by apply positions_Ok |]. split; [reflexivity |].
  fold rows.
  split; [unfold parts.fires_at; by rewrite Hsig, Hbefore, Hstep |].
  split; [done |]. split; [done |]. split; [done |]. split; [done |].
  intros Hq' Hq.
  destruct (ledger_adjacent (parts.reconstruct rows) tp (t - 1) 1 1)
    as (k & r' & r & Hr' & Hr & Hts' & Hts & _ & _ & Hvol);
    try done; replace (S (t - 1)) with t by lia; try done.
  exists (set_vol (dropna (join_price (parts.reconstruct rows) tp))), k, r', r.
  split; [apply trades_Ok |]. split; [done |].
  replace (S (t - 1)) with t in * by lia. done.
Qed.

(** ** Concrete runs *)

Lemma signal_columns_frame (b s sh c : list bool) :
  signal_columns (signal_frame b s sh c) b s sh c.
Proof. by repeat split. Qed.

Lemma repeated_buy_keeps_long_rebuy :
  ∃ ps, positions (Ok (Some rebuy_signals)) = Ok ps ∧
        ps !! 0 = Some 1%float ∧ ps !! 1 = Some 1%float ∧
        ∃ ledger k r' r,
          trades (Ok ps) (Ok [11; 12; nan]%float) = Ok ledger ∧
          ledger !! k = Some r' ∧ ledger !! S k = Some r ∧
          ts r' = 0 ∧ ts r = 1 ∧ vol r = 0%float.
Proof.
  destruct (repeated_buy_keeps_long rebuy_signals
              [true; true; false] (replicate 3 false) (replicate 3 false)
              (replicate 3 false) [11; 12; nan]%float 1
              {| parts.buy := true; parts.sell := false;
                 parts.short := false; parts.cover := false |})
    as (ps & rows & Hps & _ & _ & _ & _ & Hp0 & Hp1 & Hvol);
    try reflexivity.
  - apply signal_columns_frame.
  - exists ps. split; [exact Hps |]. split; [exact Hp0 |]. split; [exact Hp1 |].
    apply Hvol; reflexivity.
Defined.

(** The claim C8 as stated fails for the volume: the bar t2 is entered in
    the state Long with Buy true and no other signal, the position stays 1,
    but the bar t1 before it has no price and is not a row of the ledger,
    so the volume at t2 is the change from the row of t0, which is 2. *)
Lemma repeated_buy_volume_not_zero :
  parts.state_before (parts.signal_rows 5 [false; true; true; false; false]
                        (replicate 5 false)
                        [true; false; false; false; false]
                        (replicate 5 false)) 2 = parts.Long ∧
  positions (Ok (Some gap_signals)) = Ok [-1; 1; 1; 1; 1]%float ∧
  trades (positions (Ok (Some gap_signals)))
         (trade_price (backtest_of_bars gap_bars) (Ok (Some gap_signals))
                      (Ok None))
  = Ok [{| ts := 0; pos := -1; price := 11; vol := nan |};
        {| ts := 2; pos := 1; price := 13; vol := 2 |};
        {| ts := 3; pos := 1; price := 14; vol := 0 |}].
Proof. repeat split. Qed.

(** A bars table of exactly four bars under the four-bar signals: the
    default price is the open of the next bar, [10, 11, 12, NaN] for the
    opens o0, 10, 11, 12; the last bar has no price, and the ledger has
    the three rows t0, t1, t2. *)
Example four_bar_table_scenario (o0 : float) :
  positions (Ok (Some four_bar_signals)) = Ok [1; 1; 0; 0]%float ∧
  default_price (backtest_of_bars [o0; 10; 11; 12]%float)
  = Ok [10; 11; 12; nan]%float ∧
  trade_price (backtest_of_bars [o0; 10; 11; 12]%float)
              (Ok (Some four_bar_signals)) (Ok None)
  = default_price (backtest_of_bars [o0; 10; 11; 12]%float) ∧
  trades (positions (Ok (Some four_bar_signals)))
         (trade_price (backtest_of_bars [o0; 10; 11; 12]%float)
                      (Ok (Some four_bar_signals)) (Ok None))
  = Ok [{| ts := 0; pos := 1; price := 10; vol := nan |};
        {| ts := 1; pos := 1; price := 11; vol := 0 |};
        {| ts := 2; pos := 0; price := 12; vol := -1 |}].
Proof. repeat split. Qed.

(** No bars table of four bars has the default price [10, 11, 12, 13],
    the default price of the last bar being NaN; the price 13 at t3 is the
    open of a fifth bar. *)
Lemma four_bar_default_price_ends_missing :
  (¬ ∃ O : list float,
       length O = 4 ∧
       default_price (backtest_of_bars O) = Ok [10; 11; 12; 13]%float) ∧
  (∃ ledger,
      trades (positions (Ok (Some four_bar_signals)))
             (trade_price (backtest_of_bars [9; 10; 11; 12]%float)
                          (Ok (Some four_bar_signals)) (Ok None))
      = Ok ledger ∧
      length ledger = 3 ∧ vol <$> ledger = [nan; 0; -1]%float).
Proof.
  split.
  - intros (O & Hlen & H).
    assert (default_price (backtest_of_bars O) = Ok (shift (-1) O)) as Hd
      by reflexivity.
    rewrite Hd in H. injection H as H.
    pose proof (lookup_shift_back_last O 3 ltac:(lia)) as Hlast.
    rewrite H in Hlast. simpl in Hlast.
    apply (f_equal (from_option isnull false)) in Hlast.
    vm_compute in Hlast. discriminate Hlast.
  - eexists. split; [reflexivity |]. split; reflexivity.
Qed.

(** C9: for the four bars with buy = [T,F,F,F], sell = [F,F,T,F], short
    and cover false, no price fields, and a bars table whose default price
    at these four timestamps is [10, 11, 12, 13], the position series is
    [1, 1, 0, 0], the trade price is the default price at every timestamp,
    and the ledger has the four rows t0 to t3 with the volumes
    [NaN, 0, -1, 0]. *)
Theorem four_bar_scenario_with_default_price (self : Backtest) (d : list float) :
  default_price self = Ok d →
  take 4 d = [10; 11; 12; 13]%float →
  positions (Ok (Some four_bar_signals)) = Ok [1; 1; 0; 0]%float ∧
  trade_price self (Ok (Some four_bar_signals)) (Ok None) = Ok d ∧
  trades (positions (Ok (Some four_bar_signals)))
         (trade_price self (Ok (Some four_bar_signals)) (Ok None))
  = Ok [{| ts := 0; pos := 1; price := 10; vol := nan |};
        {| ts := 1; pos := 1; price := 11; vol := 0 |};
        {| ts := 2; pos := 0; price := 12; vol := -1 |};
        {| ts := 3; pos := 0; price := 13; vol := 0 |}].
Proof.
  intros Hd Htake.
  assert (trade_price self (Ok (Some four_bar_signals)) (Ok None) = Ok d)
    as Htp by (rewrite <- Hd; reflexivity).
  split; [reflexivity |]. split; [exact Htp |].
  rewrite Htp. rewrite <- (take_drop 4 d), Htake. reflexivity.
Qed.

Lemma four_bar_scenario_with_default_price_five_bars :
  positions (Ok (Some four_bar_signals)) = Ok [1; 1; 0; 0]%float ∧
  trade_price (backtest_of_bars [9; 10; 11; 12; 13]%float)
              (Ok (Some four_bar_signals)) (Ok None)
  = Ok [10; 11; 12; 13; nan]%float ∧
  trades (positions (Ok (Some four_bar_signals)))
         (trade_price (backtest_of_bars [9; 10; 11; 12; 13]%float)
                      (Ok (Some four_bar_signals)) (Ok None))
  = Ok [{| ts := 0; pos := 1; price := 10; vol := nan |};
        {| ts := 1; pos := 1; price := 11; vol := 0 |};
        {| ts := 2; pos := 0; price := 12; vol := -1 |};
        {| ts := 3; pos := 0; price := 13; vol := 0 |}].
Proof.
  apply (four_bar_scenario_with_default_price
           (backtest_of_bars [9; 10; 11; 12; 13]%float)
           [10; 11; 12; 13; nan]%float); reflexivity.
Defined.

(** With a fifth bar whose open is 13 behind the four bars of the signals,
    the four rows and the volumes of the scenario come out. *)
Example four_bar_scenario_with_fifth_bar :
  default_price (backtest_of_bars [9; 10; 11; 12; 13]%float)
  = Ok [10; 11; 12; 13; nan]%float ∧
  trades (positions (Ok (Some four_bar_signals)))
         (trade_price (backtest_of_bars [9; 10; 11; 12; 13]%float)
                      (Ok (Some four_bar_signals)) (Ok None))
  = Ok [{| ts := 0; pos := 1; price := 10; vol := nan |};
        {| ts := 1; pos := 1; price := 11; vol := 0 |};
        {| ts := 2; pos := 0; price := 12; vol := -1 |};
        {| ts := 3; pos := 0; price := 13; vol := 0 |}].
Proof. split; reflexivity. Qed.

(** The theorems of C3, C7 and C10 at concrete inputs. *)

Lemma trade_price_is_default_without_prices_four_bars :
  trade_price (backtest_of_bars [9; 10; 11; 12]%float)
              (Ok (Some four_bar_signals)) (Ok None)
  = default_price (backtest_of_bars [9; 10; 11; 12]%float) ∧
  ∃ dp, default_price (backtest_of_bars [9; 10; 11; 12]%float) = Ok dp ∧
        trade_price (backtest_of_bars [9; 10; 11; 12]%float)
                    (Ok (Some four_bar_signals)) (Ok None) = Ok dp ∧
        length dp = 4 ∧
        ∀ i, i < 4 →
             dp !! i = Some (default nan ([9; 10; 11; 12]%float !! S i)).
Proof.
  apply (trade_price_is_default_without_prices
           (backtest_of_bars [9; 10; 11; 12]%float)
           (Ok (Some four_bar_signals))
           (bars [9; 10; 11; 12]%float) [9; 10; 11; 12]%float);
    reflexivity.
Defined.

Lemma positions_undefined_before_first_transition_late :
  ∃ ps, positions (Ok (Some late_signals)) = Ok ps ∧
        ps !! 0 = Some nan ∧ ps !! 1 = Some 1%float ∧ ps !! 2 = Some 1%float.
Proof.
  destruct (positions_undefined_before_first_transition late_signals
              [false; true; false] (replicate 3 false) (replicate 3 false)
              (replicate 3 false) (signal_columns_frame _ _ _ _))
    as (ps & rows & Hps & -> & _ & H).
  exists ps. split; [exact Hps |]. split; [| split].
  - apply (H 0); [simpl; lia |]. intros [|u] Hu; [reflexivity | lia].
  - apply (H 1); [simpl; lia |]. exists 1. split; [lia | reflexivity].
  - apply (H 2); [simpl; lia |]. exists 1. split; [lia | reflexivity].
Defined.

Lemma ledger_rows_have_a_price_four_bars :
  (∀ tp, ∃ t, trades (Ok [1; 1; 0; 0]%float) (Ok tp) = Ok t ∧
              (∀ r, r ∈ t → isnull (price r) = false) ∧
              (∀ i, isnull (default nan (tp !! i)) = true →
                    ∀ r, r ∈ t → ts r ≠ i)) ∧
  (∃ t, trades (Ok [1; 1; 0; 0]%float)
               (trade_price (backtest_of_bars [9; 10; 11; 12]%float)
                            (Ok (Some four_bar_signals)) (Ok None)) = Ok t ∧
        ∀ r, r ∈ t → isnull (price r) = false ∧ S (ts r) < 4).
Proof.
  apply (ledger_rows_have_a_price
           (backtest_of_bars [9; 10; 11; 12]%float)
           (Ok (Some four_bar_signals)) [1; 1; 0; 0]%float
           (bars [9; 10; 11; 12]%float) [9; 10; 11; 12]%float);
    reflexivity.
Defined.

(** * Further properties of the constructor, the trade price, the ledger
    and the markers *)

Lemma lower_ascii_idemp (c : ascii) : lower_ascii (lower_ascii c) = lower_ascii c.
Proof. destruct c as [[] [] [] [] [] [] [] []]; reflexivity. Qed.

Lemma lower_idemp (s : string) : lower (lower s) = lower s.
Proof. induction s as [|c s IH]; simpl; [done |]. by rewrite lower_ascii_idemp, IH. Qed.

Lemma dict_snoc (items : list (string * pyobj)) (k : string) (v : pyobj) :
  dict (items ++ [(k, v)]) = <[k := v]> (dict items).
Proof. unfold dict. by rewrite foldl_app. Qed.

Lemma lookup_dict_is_Some (items : list (string * pyobj)) (k : string) :
  is_Some (dict items !! k) ↔ ∃ v, (k, v) ∈ items.
Proof.
  induction items as [|[k' v'] items IH] using rev_ind.
  - change (dict []) with (∅ : gmap string pyobj). rewrite lookup_empty. split.
    + by intros [x Hx].
    + intros [v Hv]. by apply elem_of_nil in Hv.
  - rewrite dict_snoc. destruct (decide (k' = k)) as [->|Hne].
    + rewrite lookup_insert_eq. split; [| eauto].
      intros _. exists v'. apply elem_of_app. right. by left.
    + rewrite lookup_insert_ne by done. rewrite IH. split.
      * intros [v Hv]. exists v. apply elem_of_app. by left.
      * intros [v [Hv|Hv]%elem_of_app]; [eauto |].
        apply list_elem_of_singleton in Hv. congruence.
Qed.

Lemma lookup_dict_last (l1 l2 : list (string * pyobj)) (k : string) (v : pyobj) :
  (∀ kv, kv ∈ l2 → kv.1 ≠ k) →
  dict (l1 ++ (k, v) :: l2) !! k = Some v.
Proof.
  induction l2 as [|[k' v'] l2 IH] using rev_ind; intros Hl2.
  - rewrite dict_snoc. apply lookup_insert_eq.
  - rewrite app_comm_cons, app_assoc, dict_snoc.
    rewrite lookup_insert_ne.
    + apply IH. intros kv Hkv. apply Hl2. apply elem_of_app. by left.
    + apply (Hl2 (k', v')). apply elem_of_app. right. by left.
Qed.

Lemma init_Ok_inv (items : list (string * pyobj)) (name : string)
    (sf pf : list string) (self : Backtest) :
  __init__ items name sf pf = Ok self →
  _dataobj self = dict (prod_map lower id <$> items) ∧ ∃ s, ohlc self = Ok s.
Proof.
  unfold __init__. cbv zeta.
  destruct (ohlc _) as [s|e] eqn:Hs; rewrite ?bind_Ok, ?bind_Raise; [| discriminate].
  intros [= <-]. split; [done | eauto].
Qed.

Lemma elem_of_lowered (items : list (string * pyobj)) (k : string) (v : pyobj) :
  (k, v) ∈ prod_map lower id <$> items ↔
  ∃ k', (k', v) ∈ items ∧ lower k' = k.
Proof.
  rewrite list_elem_of_fmap. split.
  - intros ([k' v'] & [= -> ->] & Hin). eauto.
  - intros (k' & Hin & <-). by exists (k', v).
Qed.

(** X1: the constructor stores the input under lower-case keys: every key
    of [dataobj] is its own lower-case form, and the keys are exactly the
    lower-case forms of the keys of the input. *)
Theorem init_keys_are_lower_case (items : list (string * pyobj)) (name : string)
    (sf pf : list string) (self : Backtest) :
  __init__ items name sf pf = Ok self →
  (∀ k, is_Some (dataobj self !! k) → lower k = k) ∧
  (∀ k, is_Some (dataobj self !! k) ↔ ∃ k' v, (k', v) ∈ items ∧ lower k' = k).
Proof.
  intros [Hd _]%init_Ok_inv. unfold dataobj. rewrite Hd.
  assert (∀ k, is_Some (dict (prod_map lower id <$> items) !! k) ↔
               ∃ k' v, (k', v) ∈ items ∧ lower k' = k) as Hkeys.
  { intros k. rewrite lookup_dict_is_Some. split.
    - intros (v & (k' & Hin & Hk)%elem_of_lowered). eauto.
    - intros (k' & v & Hin & Hk). exists v. apply elem_of_lowered. eauto. }
  split; [| exact Hkeys].
  intros k (k' & v & _ & <-)%Hkeys. apply lower_idemp.
Qed.

(** X2: a field of the input is read back from [dataobj] under the
    lower-case form of its key; when several keys of the input have the
    same lower-case form, the item that comes last holds the key. *)
Theorem init_last_item_wins (items l1 l2 : list (string * pyobj)) (k : string)
    (v : pyobj) (name : string) (sf pf : list string) (self : Backtest) :
  __init__ items name sf pf = Ok self →
  items = l1 ++ (k, v) :: l2 →
  (∀ kv, kv ∈ l2 → lower kv.1 ≠ lower k) →
  dataobj self !! lower k = Some v.
Proof.
  intros [Hd _]%init_Ok_inv -> Hl2. unfold dataobj. rewrite Hd.
  rewrite fmap_app, fmap_cons. apply lookup_dict_last.
  intros kv ([k' v'] & -> & Hin)%list_elem_of_fmap. simpl. by apply (Hl2 (k', v')).
Qed.

(** X3: the bars table is found whatever the case of its key: when the
    constructor succeeds on an input whose last key with the lower-case
    form 'ohlc' carries a value other than None, [ohlc] returns that
    value. *)
Theorem init_finds_bars_in_any_case (l1 l2 : list (string * pyobj)) (k : string)
    (v : pyobj) (name : string) (sf pf : list string) (self : Backtest) :
  __init__ (l1 ++ (k, v) :: l2) name sf pf = Ok self →
  lower k = "ohlc" → v ≠ PyNone →
  (∀ kv, kv ∈ l2 → lower kv.1 ≠ "ohlc") →
  ohlc self = Ok v.
Proof.
  intros [Hd _]%init_Ok_inv Hk Hv Hl2.
  unfold ohlc, dataobj. rewrite Hd. simpl. unfold get.
  rewrite fmap_app, fmap_cons. simpl. rewrite Hk.
  rewrite lookup_dict_last.
  - simpl. by destruct v.
  - intros kv ([k' v'] & -> & Hin)%list_elem_of_fmap. simpl.
    by apply (Hl2 (k', v')).
Qed.

Lemma assign_prices_Ok_inv sg pr (pairs : list (string * string)) (dp dp' : list float) :
  assign_prices sg pr pairs dp = Ok dp' → pairs ≠ [] →
  ∃ sgf prf, sg = Ok (Some sgf) ∧ pr = Ok (Some prf) ∧
    Forall (λ names, is_Some (columns sgf !! names.2) ∧
                     is_Some (columns prf !! names.1)) pairs.
Proof.
  revert dp. induction pairs as [|[pfn sfn] pairs IH]; intros dp H Hne; [done |].
  simpl in H.
  destruct sg as [[sgf|]|e1]; simpl in H; try discriminate H.
  unfold getitem in H.
  destruct (columns sgf !! sfn) as [s|] eqn:Hs; simpl in H; try discriminate H.
  destruct pr as [[prf|]|e2]; simpl in H; try discriminate H.
  unfold getitem in H.
  destruct (columns prf !! pfn) as [p|] eqn:Hp; simpl in H; try discriminate H.
  destruct (bool_getitem p s) as [v|e3]; simpl in H; try discriminate H.
  destruct (bool_setitem dp s v) as [dp1|e4]; simpl in H; try discriminate H.
  exists sgf, prf. split; [done |]. split; [done |].
  apply Forall_cons. split; [simpl; rewrite Hs, Hp; split; eauto |].
  destruct pairs as [|q pairs]; [constructor |].
  destruct (IH dp1 H) as (sgf' & prf' & [= <-] & [= <-] & Hall); done.
Qed.

(** X4: with a prices frame present, [trade_price] returns only when the
    signals frame is present, all four signal columns and all four price
    columns exist, and the bars table has its open column; otherwise it
    raises. *)
Theorem trade_price_needs_every_column
    (self : Backtest) (sg : result (option (DataFrame bool)))
    (pr : DataFrame float) (tp : list float) :
  trade_price self sg (Ok (Some pr)) = Ok tp →
  (∃ sgf, sg = Ok (Some sgf) ∧
          ∀ n, n ∈ ["Buy"; "Sell"; "Short"; "Cover"] →
               is_Some (columns sgf !! n)) ∧
  (∀ n, n ∈ ["BuyPrice"; "SellPrice"; "ShortPrice"; "CoverPrice"] →
        is_Some (columns pr !! n)) ∧
  (∃ o O, ohlc self = Ok o ∧ getattr o "O" = Ok O).
Proof.
  unfold trade_price. rewrite bind_Ok. intros H.
  match type of H with
  | context [assign_prices ?a ?b ?c ?d] =>
      destruct (assign_prices a b c d) as [dp|e] eqn:Hloop
  end; [| discriminate H].
  rewrite bind_Ok in H.
  apply assign_prices_Ok_inv in Hloop as (sgf & prf & -> & [= <-] & Hall);
    [| done].
  simpl in Hall. rewrite !Forall_cons in Hall.
  destruct Hall as ((Hb & Hbp) & (Hs & Hsp) & (Hsh & Hshp) & (Hc & Hcp) & _).
  simpl in *. split; [| split].
  - exists sgf. split; [done |]. intros n Hn.
    repeat (apply elem_of_cons in Hn as [->|Hn]; [done |]).
    by apply elem_of_nil in Hn.
  - intros n Hn.
    repeat (apply elem_of_cons in Hn as [->|Hn]; [done |]).
    by apply elem_of_nil in Hn.
  - unfold default_price in H.
    destruct (ohlc self) as [o|e]; [| discriminate H]. rewrite bind_Ok in H.
    destruct (getattr o "O") as [O|e] eqn:HO; [| discriminate H]. eauto.
Qed.

Lemma length_passes (cols : list (list bool * list float)) (dp : list float) :
  length (foldl (λ dp sp, masked dp sp.1 sp.2) dp cols) = length dp.
Proof.
  revert dp. induction cols as [|sp cols IH]; intros dp; [done |].
  simpl. by rewrite IH, length_masked.
Qed.

(** X5: with price fields present, the trade price covers the index of
    the prices and the index of the bars table, and at the timestamps of
    the bars table that lie beyond the index of the prices it is the
    default price. *)
Theorem trade_price_covers_both_indexes
    (self : Backtest) (sg : DataFrame bool) (pr : DataFrame float)
    (cols : list (list bool * list float)) (d : list float) :
  price_columns sg pr (zip _pr_mask_int _sig_mask_int) cols →
  default_price self = Ok d →
  ∃ tp, trade_price self (Ok (Some sg)) (Ok (Some pr)) = Ok tp ∧
        length tp = index pr `max` length d ∧
        ∀ t, index pr ≤ t → t < length d → tp !! t = d !! t.
Proof.
  intros Hcols Hd. eexists. split; [by apply (trade_price_Ok self sg pr cols) |].
  assert (length (foldl (λ dp sp, masked dp sp.1 sp.2)
                    (empty_series (index pr)) cols) = index pr) as Hlen.
  { rewrite length_passes. apply length_replicate. }
  split; [by rewrite length_combine_first, Hlen |].
  intros t Hge Hlt. rewrite lookup_combine_first by (rewrite Hlen; lia).
  rewrite (lookup_ge_None_2 _ t) by (rewrite Hlen; lia). simpl.
  by destruct (lookup_lt_is_Some_2 d t Hlt) as [x ->].
Qed.

(** X6: explicit prices never erase a price: wherever the default price
    is defined, the trade price is defined. *)
Theorem trade_price_keeps_default_defined
    (self : Backtest) (sg : DataFrame bool) (pr : DataFrame float)
    (cols : list (list bool * list float)) (d : list float) :
  price_columns sg pr (zip _pr_mask_int _sig_mask_int) cols →
  default_price self = Ok d →
  ∃ tp, trade_price self (Ok (Some sg)) (Ok (Some pr)) = Ok tp ∧
        ∀ t x, d !! t = Some x → isnull x = false →
               ∃ y, tp !! t = Some y ∧ isnull y = false.
Proof.
  intros Hcols Hd. eexists. split; [by apply (trade_price_Ok self sg pr cols) |].
  intros t x Hx Hnx.
  rewrite lookup_combine_first by (apply lookup_lt_Some in Hx; lia).
  eexists. split; [reflexivity |]. cbv zeta. rewrite Hx. simpl.
  by destruct (isnull (default nan (_ !! t))) eqn:E.
Qed.

Lemma ledger_ts_NoDup (ps tp : list float) :
  NoDup (ts <$> set_vol (dropna (join_price ps tp))).
Proof.
  apply NoDup_alt. intros i j n Hi Hj.
  apply list_lookup_fmap_Some in Hi as (r & -> & Hr).
  apply list_lookup_fmap_Some in Hj as (r' & Hts & Hr').
  by eapply ledger_ts_inj.
Qed.

(** X7: every row of the ledger has a timestamp that both the positions
    and the trade price have, so the ledger has at most as many rows as
    the shorter of the two; prices at timestamps beyond the positions are
    ignored. *)
Theorem trades_rows_within_both_indexes (ps tp : list float) :
  ∃ t, trades (Ok ps) (Ok tp) = Ok t ∧
       (∀ r, r ∈ t → ts r < length ps ∧ ts r < length tp) ∧
       length t ≤ length ps `min` length tp ∧
       ∀ extra, length ps ≤ length tp →
                trades (Ok ps) (Ok (tp ++ extra)) = Ok t.
Proof.
  exists (set_vol (dropna (join_price ps tp))). split; [apply trades_Ok |].
  assert (∀ r, r ∈ set_vol (dropna (join_price ps tp)) →
               ts r < length ps ∧ ts r < length tp) as Hbound.
  { intros r (Hp & Hq & _ & Hn)%ledger_row. split; [by eapply lookup_lt_Some |].
    destruct (tp !! ts r) as [q|] eqn:E; [by eapply lookup_lt_Some |].
    rewrite Hq in Hn. discriminate Hn. }
  split; [exact Hbound |]. split.
  - assert (length (ts <$> set_vol (dropna (join_price ps tp)))
            ≤ length (seq 0 (length ps `min` length tp))) as Hle.
    { apply submseteq_length, NoDup_submseteq; [apply ledger_ts_NoDup |].
      intros i (r & -> & Hr)%list_elem_of_fmap. apply elem_of_seq.
      destruct (Hbound r Hr). lia. }
    by rewrite length_fmap, length_seq in Hle.
  - intros extra Hlen. rewrite trades_Ok. do 3 f_equal.
    unfold join_price. apply imap_ext. intros i p Hi. simpl.
    apply lookup_lt_Some in Hi. by rewrite lookup_app_l by lia.
Qed.

Lemma gt_zero_not_lt_zero (x : float) :
  PrimFloat.ltb 0 x = true → PrimFloat.ltb x 0 = false.
Proof.
  rewrite !ltb_spec. change (FloatOps.Prim2SF 0) with (SpecFloat.S754_zero false).
  destruct (FloatOps.Prim2SF x) as [s|s| |s m e]; try destruct s; cbv; congruence.
Qed.

Lemma lookup_and_true (a b : list bool) (k : nat) :
  plot_trades.and_ a b !! k = Some true ↔ a !! k = Some true ∧ b !! k = Some true.
Proof.
  unfold plot_trades.and_. rewrite lookup_zip_with_Some. split.
  - intros (x & y & Hxy & Hx & Hy). symmetry in Hxy.
    apply andb_true_iff in Hxy as [-> ->]. done.
  - intros [Ha Hb]. by exists true, true.
Qed.

Lemma lookup_gt_true (s : list float) (c : float) (k : nat) :
  plot_trades.gt s c !! k = Some true ↔ ∃ x, s !! k = Some x ∧ PrimFloat.ltb c x = true.
Proof.
  unfold plot_trades.gt. rewrite list_lookup_fmap_Some. split.
  - intros (x & Hx & Hs). eauto.
  - intros (x & Hs & Hx). eauto.
Qed.

Lemma lookup_lt_true (s : list float) (c : float) (k : nat) :
  plot_trades.lt s c !! k = Some true ↔ ∃ x, s !! k = Some x ∧ PrimFloat.ltb x c = true.
Proof.
  unfold plot_trades.lt. rewrite list_lookup_fmap_Some. split.
  - intros (x & Hx & Hs). eauto.
  - intros (x & Hs & Hx). eauto.
Qed.

Lemma gt_lt_exclusive (s : list float) (k : nat) :
  plot_trades.gt s 0 !! k = Some true → plot_trades.lt s 0 !! k = Some true → False.
Proof.
  intros (x & Hx & Hg)%lookup_gt_true (y & Hy & Hl)%lookup_lt_true.
  rewrite Hx in Hy. injection Hy as <-.
  apply gt_zero_not_lt_zero in Hg. congruence.
Qed.

(** X8: the selections of [plot_trades] exclude each other: no row is
    both long entry and short entry, both long entry and long exit, both
    short entry and short exit, or both long exit and short exit. *)
Theorem markers_are_exclusive (fr : list TradeRow) (k : nat) :
  ¬ (plot_trades.le_mask fr !! k = Some true ∧ plot_trades.se_mask fr !! k = Some true) ∧
  ¬ (plot_trades.le_mask fr !! k = Some true ∧ plot_trades.lx_mask fr !! k = Some true) ∧
  ¬ (plot_trades.se_mask fr !! k = Some true ∧ plot_trades.sx_mask fr !! k = Some true) ∧
  ¬ (plot_trades.lx_mask fr !! k = Some true ∧ plot_trades.sx_mask fr !! k = Some true).
Proof.
  unfold plot_trades.le_mask, plot_trades.se_mask, plot_trades.lx_mask,
    plot_trades.sx_mask.
  repeat split; intros [[H1 H2]%lookup_and_true [H3 H4]%lookup_and_true];
    eauto using gt_lt_exclusive.
Qed.

Lemma lookup_price_where (fr : list TradeRow) (mask : list bool) (i : nat) (p : float) :
  (i, p) ∈ plot_trades.price_where fr mask ↔
  ∃ k r, fr !! k = Some r ∧ mask !! k = Some true ∧ ts r = i ∧ price r = p.
Proof.
  unfold plot_trades.price_where. rewrite list_elem_of_fmap. split.
  - intros ([r m] & [= -> ->] & [Hm Hin]%list_elem_of_filter). simpl in *. subst m.
    apply list_elem_of_lookup in Hin as [k Hk].
    apply lookup_zip_Some in Hk as [Hr Hm]. by exists k, r.
  - intros (k & r & Hr & Hm & <- & <-). exists (r, true). split; [done |].
    apply list_elem_of_filter. split; [done |].
    apply list_elem_of_lookup. exists k. by apply lookup_zip_Some.
Qed.

Lemma exit_masks_first_row (fr : list TradeRow) :
  plot_trades.lx_mask fr !! 0 ≠ Some true ∧ plot_trades.sx_mask fr !! 0 ≠ Some true.
Proof.
  unfold plot_trades.lx_mask, plot_trades.sx_mask.
  split; intros [H _]%lookup_and_true.
  - apply lookup_gt_true in H as (x & Hx & Hg).
    unfold shift in Hx. rewrite list_lookup_imap in Hx.
    destruct ((pos <$> fr) !! 0); simplify_eq/=; try discriminate Hg.
  - apply lookup_lt_true in H as (x & Hx & Hg).
    unfold shift in Hx. rewrite list_lookup_imap in Hx.
    destruct ((pos <$> fr) !! 0); simplify_eq/=; try discriminate Hg.
Qed.

Lemma entry_masks_first_row (ps tp : list float) :
  plot_trades.le_mask (set_vol (dropna (join_price ps tp))) !! 0 ≠ Some true ∧
  plot_trades.se_mask (set_vol (dropna (join_price ps tp))) !! 0 ≠ Some true.
Proof.
  set (L := set_vol (dropna (join_price ps tp))).
  assert (∀ v, (vol <$> L) !! 0 = Some v → v = nan) as Hv.
  { intros v (r & -> & Hr)%list_lookup_fmap_Some.
    apply lookup_set_vol in Hr as (x & w & Hx & Hw & ->). simpl.
    erewrite lookup_diff_first in Hw; [by injection Hw as <- |].
    by rewrite !list_lookup_fmap, Hx. }
  unfold plot_trades.le_mask, plot_trades.se_mask.
  split; intros [_ H]%lookup_and_true.
  - apply lookup_gt_true in H as (x & Hx & Hg). apply Hv in Hx as ->. discriminate Hg.
  - apply lookup_lt_true in H as (x & Hx & Hg). apply Hv in Hx as ->. discriminate Hg.
Qed.

(** X9: when the whole ledger is plotted, its first row carries none of
    the four markers (its volume is NaN and it has no row before it). *)
Theorem first_ledger_row_has_no_marker (ps tp : list float) :
  ∃ t, trades (Ok ps) (Ok tp) = Ok t ∧
       ∀ r0 p, t !! 0 = Some r0 →
               ((ts r0, p) ∉ plot_trades.le t) ∧
               ((ts r0, p) ∉ plot_trades.se t) ∧
               ((ts r0, p) ∉ plot_trades.lx t) ∧
               ((ts r0, p) ∉ plot_trades.sx t).
Proof.
  exists (set_vol (dropna (join_price ps tp))). split; [apply trades_Ok |].
  intros r0 p Hr0.
  destruct (entry_masks_first_row ps tp) as [Hle Hse].
  destruct (exit_masks_first_row (set_vol (dropna (join_price ps tp)))) as [Hlx Hsx].
  assert (∀ mask, mask !! 0 ≠ Some true →
            (ts r0, p) ∉ plot_trades.price_where
                           (set_vol (dropna (join_price ps tp))) mask) as Hno.
  { intros mask Hm (k & r & Hr & Hk & Hts & _)%lookup_price_where.
    assert (k = 0) as -> by (by eapply ledger_ts_inj). done. }
  unfold plot_trades.le, plot_trades.se, plot_trades.lx, plot_trades.sx.
  repeat split; by apply Hno.
Qed.

(** X10: whatever range is plotted, its first row is never marked as a
    long exit or a short exit, the shifted position being NaN there. *)
Theorem first_plotted_row_is_no_exit (fr : list TradeRow) :
  plot_trades.lx_mask fr !! 0 ≠ Some true ∧ plot_trades.sx_mask fr !! 0 ≠ Some true.
Proof. apply exit_masks_first_row. Qed.

(** The theorems X1 to X6 at concrete inputs. *)

Lemma init_keys_are_lower_case_mixed :
  (∀ k, is_Some (dataobj (backtest_of_items mixed_case_items) !! k) →
        lower k = k) ∧
  (∀ k, is_Some (dataobj (backtest_of_items mixed_case_items) !! k) ↔
        ∃ k' v, (k', v) ∈ mixed_case_items ∧ lower k' = k).
Proof.
  apply (init_keys_are_lower_case mixed_case_items "Unknown"
           default_signal_fields default_price_fields).
  reflexivity.
Defined.

Lemma init_last_item_wins_colliding :
  dataobj (backtest_of_items colliding_items) !! lower "BARS"
  = Some (PyObject "second").
Proof.
  apply (init_last_item_wins colliding_items
           [("ohlc", PyObject "o"); ("Bars", PyObject "first")] []
           "BARS" (PyObject "second") "Unknown"
           default_signal_fields default_price_fields).
  - reflexivity.
  - reflexivity.
  - intros kv Hkv. by apply elem_of_nil in Hkv.
Defined.

Lemma init_finds_bars_in_any_case_mixed :
  ohlc (backtest_of_items mixed_case_items) = Ok (bars [9; 10]%float).
Proof.
  apply (init_finds_bars_in_any_case [("close", PyObject "c")]
           [("Buy", PyBoolSeries [true; false])] "OHLC"
           (bars [9; 10]%float) "Unknown"
           default_signal_fields default_price_fields).
  - reflexivity.
  - reflexivity.
  - discriminate.
  - intros kv Hkv. apply list_elem_of_singleton in Hkv as ->. discriminate.
Defined.

Lemma trade_price_needs_every_column_scenario :
  (∃ sgf, Ok (Some scenario_signals) = Ok (Some sgf) ∧
          ∀ n, n ∈ ["Buy"; "Sell"; "Short"; "Cover"] →
               is_Some (columns sgf !! n)) ∧
  (∀ n, n ∈ ["BuyPrice"; "SellPrice"; "ShortPrice"; "CoverPrice"] →
        is_Some (columns scenario_prices !! n)) ∧
  (∃ o O, ohlc (backtest_of_bars [9; 10; 11; 12]%float) = Ok o ∧
          getattr o "O" = Ok O).
Proof.
  apply (trade_price_needs_every_column
           (backtest_of_bars [9; 10; 11; 12]%float)
           (Ok (Some scenario_signals)) scenario_prices
           [10; 9.5; 12; nan]%float).
  reflexivity.
Defined.

Lemma trade_price_covers_both_indexes_longer_bars :
  ∃ tp, trade_price (backtest_of_bars [9; 10; 11; 12; 13; 14]%float)
          (Ok (Some scenario_signals)) (Ok (Some scenario_prices)) = Ok tp ∧
        length tp = 6 ∧
        ∀ t, 4 ≤ t → t < 6 →
             tp !! t = [10; 11; 12; 13; 14; nan]%float !! t.
Proof.
  apply (trade_price_covers_both_indexes
           (backtest_of_bars [9; 10; 11; 12; 13; 14]%float)
           scenario_signals scenario_prices scenario_columns
           [10; 11; 12; 13; 14; nan]%float).
  - apply price_columns_frames; simpl; lia.
  - reflexivity.
Defined.

Lemma trade_price_keeps_default_defined_scenario :
  ∃ tp, trade_price (backtest_of_bars [9; 10; 11; 12]%float)
          (Ok (Some scenario_signals)) (Ok (Some scenario_prices)) = Ok tp ∧
        ∀ t x, [10; 11; 12; nan]%float !! t = Some x → isnull x = false →
               ∃ y, tp !! t = Some y ∧ isnull y = false.
Proof.
  apply (trade_price_keeps_default_defined
           (backtest_of_bars [9; 10; 11; 12]%float)
           scenario_signals scenario_prices scenario_columns
           [10; 11; 12; nan]%float).
  - apply price_columns_frames; simpl; lia.
  - reflexivity.
Defined.
